(** * Bank compliance notebook (lanterndb/lantern.ipynb): a shallow embedding

    The notebook is glue code around four external collaborators: two HTTP
    endpoints (document ingestion and chunking), a Postgres database with
    the Lantern extension, and a chat-completion LLM.  The collaborators
    are oracles (section variables); the notebook's own statements are
    functions over Python values, with Python's exceptions made explicit
    and the externally visible effects recorded in an event trace. *)

From Stdlib Require Import ZArith Ascii String List Lia.
From stdpp Require Import base option list sorting gmap strings.

Local Open Scope string_scope.
Local Open Scope list_scope.

(** ** Python [str] methods used by the notebook

    A [str] is modelled on code points below 256 (one [ascii] per code
    point).  [isspace] and [to_lower] are Python's tables restricted to
    that range. *)

Module PyText.

(** [str.isspace] on one code point: TAB..CR, FS..US, SPACE, NEL, NBSP. *)
Definition isspace (c : ascii) : bool :=
  let n := nat_of_ascii c in
  (((9 <=? n) && (n <=? 13)) || ((28 <=? n) && (n <=? 32))
   || (n =? 133) || (n =? 160))%nat.

(** [str.lower] on one code point: A..Z and the Latin-1 capitals
    (U+00C0..U+00DE without the multiplication sign U+00D7). *)
Definition to_lower (c : ascii) : ascii :=
  let n := nat_of_ascii c in
  if (((65 <=? n) && (n <=? 90))
      || ((192 <=? n) && (n <=? 222) && negb (n =? 215)))%nat
  then ascii_of_nat (n + 32) else c.

Fixpoint lower (s : string) : string :=
  match s with
  | EmptyString => EmptyString
  | String c s' => String (to_lower c) (lower s')
  end.

Fixpoint lstrip (s : string) : string :=
  match s with
  | EmptyString => EmptyString
  | String c s' => if isspace c then lstrip s' else s
  end.

Fixpoint rstrip (s : string) : string :=
  match s with
  | EmptyString => EmptyString
  | String c s' =>
      match rstrip s' with
      | EmptyString => if isspace c then EmptyString else String c EmptyString
      | r => String c r
      end
  end.

(** [s.strip()] with no argument: whitespace removed at both ends. *)
Definition strip (s : string) : string := rstrip (lstrip s).

(** Every character of [s] is whitespace. *)
Fixpoint all_space (s : string) : bool :=
  match s with
  | EmptyString => true
  | String c s' => isspace c && all_space s'
  end.

(** The sixteen spellings of the word true that differ only in case. *)
Definition spells_true (s : string) : Prop :=
  exists c1 c2 c3 c4 : ascii,
    s = String c1 (String c2 (String c3 (String c4 EmptyString)))
    /\ (c1 = "t" \/ c1 = "T")%char /\ (c2 = "r" \/ c2 = "R")%char
    /\ (c3 = "u" \/ c3 = "U")%char /\ (c4 = "e" \/ c4 = "E")%char.

End PyText.

(** ** Python values and exceptions *)

(** The values the notebook handles.  A float is kept as its IEEE-754
    bit pattern (no float arithmetic happens in the notebook itself); a
    dict has string keys, as JSON objects do, in insertion order;
    [PResponse] is a [requests.Response] with its status code and, when
    the body is valid JSON, the decoded body; [PAttr] stands for an
    attribute that exists but whose value is not modelled (a bound
    method, the response headers, ...). *)
#[local] Unset Elimination Schemes.
Inductive PyVal : Type :=
| PNone
| PBool (b : bool)
| PInt (n : Z)
| PFloat (bits : Z)
| PStr (s : string)
| PList (items : list PyVal)
| PTuple (items : list PyVal)
| PDict (entries : list (string * PyVal))
| PResponse (status_code : Z) (body : option PyVal)
| PAttr (owner name : string).
#[local] Set Elimination Schemes.

(** The error classes of the specification's taxonomy.  The notebook
    defines and raises none of them. *)
Inductive ErrorClass : Type :=
| ExternalServiceError | SchemaError | ParseError | DataError.

(** Python's built-in exceptions, the decoder's, psycopg2's (by the
    class in [psycopg2.errors]) and, by class name, any other exception a
    collaborator raises (a connection loss, an error of the OpenAI
    client, ...). *)
Inductive PyExc : Type :=
| AttributeError
| IndexError
| KeyError
| NameError
| TypeError
| ValueError
| JSONDecodeError
| DuplicateTable
| UndefinedTable
| ActiveSqlTransaction
| InFailedSqlTransaction
| OtherError (class_name : string)
| Taxonomy (c : ErrorClass).

Inductive PyResult (A : Type) : Type :=
| Ok (a : A)
| Raise (e : PyExc).
Arguments Ok {A} a.
Arguments Raise {A} e.

(** ** Dictionaries in insertion order *)

Definition dict (V : Type) : Type := list (string * V).

Fixpoint dict_get {V : Type} (k : string) (d : dict V) : option V :=
  match d with
  | [] => None
  | (k', v) :: d' => if String.eqb k' k then Some v else dict_get k d'
  end.

(** [d[k] = v]: an existing key keeps its position, a new key goes last. *)
Fixpoint dict_set {V : Type} (k : string) (v : V) (d : dict V) : dict V :=
  match d with
  | [] => [(k, v)]
  | (k', v') :: d' =>
      if String.eqb k' k then (k, v) :: d' else (k', v') :: dict_set k v d'
  end.

Definition dict_keys {V : Type} (d : dict V) : list string := fst <$> d.

(** ** Subscription and attribute access *)

Inductive Key : Type :=
| KInt (i : Z)
| KStr (s : string).

(** [items[i]] on a list or tuple; a negative index counts from the end. *)
Definition seq_index (items : list PyVal) (i : Z) : PyResult PyVal :=
  let n := Z.of_nat (length items) in
  let j := if (i <? 0)%Z then (i + n)%Z else i in
  if ((0 <=? j) && (j <? n))%Z
  then match items !! Z.to_nat j with
       | Some v => Ok v
       | None => Raise IndexError
       end
  else Raise IndexError.

Definition str_index (s : string) (i : Z) : PyResult PyVal :=
  let n := Z.of_nat (String.length s) in
  let j := if (i <? 0)%Z then (i + n)%Z else i in
  if ((0 <=? j) && (j <? n))%Z
  then match String.get (Z.to_nat j) s with
       | Some c => Ok (PStr (String c EmptyString))
       | None => Raise IndexError
       end
  else Raise IndexError.

(** [v[k]]. *)
Definition getitem (v : PyVal) (k : Key) : PyResult PyVal :=
  match v, k with
  | PList items, KInt i => seq_index items i
  | PTuple items, KInt i => seq_index items i
  | PStr s, KInt i => str_index s i
  | PDict entries, KStr s =>
      match dict_get s entries with
      | Some x => Ok x
      | None => Raise KeyError
      end
  | PDict _, KInt _ => Raise KeyError
  | _, _ => Raise TypeError
  end.

Definition type_name (v : PyVal) : string :=
  match v with
  | PNone => "NoneType"
  | PBool _ => "bool"
  | PInt _ => "int"
  | PFloat _ => "float"
  | PStr _ => "str"
  | PList _ => "list"
  | PTuple _ => "tuple"
  | PDict _ => "dict"
  | PResponse _ _ => "Response"
  | PAttr _ _ => "builtin_function_or_method"
  end.

(** The public attribute names of each type (Python 3.8, requests 2.x);
    names with a leading underscore are outside the model. *)
Definition public_attrs (v : PyVal) : list string :=
  match v with
  | PNone | PAttr _ _ => []
  | PBool _ | PInt _ =>
      ["as_integer_ratio"; "bit_length"; "conjugate"; "denominator";
       "from_bytes"; "imag"; "numerator"; "real"; "to_bytes"]
  | PFloat _ =>
      ["as_integer_ratio"; "conjugate"; "fromhex"; "hex"; "imag";
       "is_integer"; "real"]
  | PStr _ =>
      ["capitalize"; "casefold"; "center"; "count"; "encode"; "endswith";
       "expandtabs"; "find"; "format"; "format_map"; "index"; "isalnum";
       "isalpha"; "isascii"; "isdecimal"; "isdigit"; "isidentifier";
       "islower"; "isnumeric"; "isprintable"; "isspace"; "istitle";
       "isupper"; "join"; "ljust"; "lower"; "lstrip"; "maketrans";
       "partition"; "replace"; "rfind"; "rindex"; "rjust"; "rpartition";
       "rsplit"; "rstrip"; "split"; "splitlines"; "startswith"; "strip";
       "swapcase"; "title"; "translate"; "upper"; "zfill"]
  | PList _ =>
      ["append"; "clear"; "copy"; "count"; "extend"; "index"; "insert";
       "pop"; "remove"; "reverse"; "sort"]
  | PTuple _ => ["count"; "index"]
  | PDict _ =>
      ["clear"; "copy"; "fromkeys"; "get"; "items"; "keys"; "pop";
       "popitem"; "setdefault"; "update"; "values"]
  | PResponse _ _ =>
      ["apparent_encoding"; "close"; "content"; "cookies"; "elapsed";
       "encoding"; "headers"; "history"; "is_permanent_redirect";
       "is_redirect"; "iter_content"; "iter_lines"; "json"; "links";
       "next"; "ok"; "raise_for_status"; "raw"; "reason"; "request";
       "status_code"; "text"; "url"]
  end.

(** [v.name]. *)
Definition getattr (v : PyVal) (name : string) : PyResult PyVal :=
  if existsb (String.eqb name) (public_attrs v)
  then match v with
       | PResponse status_code _ =>
           if String.eqb name "status_code" then Ok (PInt status_code)
           else Ok (PAttr (type_name v) name)
       | _ => Ok (PAttr (type_name v) name)
       end
  else Raise AttributeError.

(** [response.json()]: the decoded body, or the decoder's exception. *)
Definition json (response : PyVal) : PyResult PyVal :=
  match response with
  | PResponse _ (Some decoded) => Ok decoded
  | PResponse _ None => Raise JSONDecodeError
  | _ => Raise AttributeError
  end.

(** ** Effects *)

(** The SQL statements the notebook sends through [cursor.execute]. *)
Inductive Sql : Type :=
| CreateTable
| EnableDaemon
| SetOpenAIToken
| AddEmbeddingJob
| SelectNearest (query : string).

(** An f-string, part by part: literal text and the values of its
    fields.  The text Python builds is the concatenation of the parts,
    each field rendered by [format]. *)
Inductive Part : Type :=
| Lit (text : string)
| Field (value : PyVal).

(** Externally visible steps, in program order: an HTTP request, a
    statement sent to the server, [conn.commit()], a call of
    [client.chat.completions.create], a printed line.  [CallJudge] marks
    the entry into [check_compliance]. *)
Inductive Event : Type :=
| Post (url : string) (payload : PyVal)
| Execute (stmt : Sql)
| Commit
| CallJudge (query : string)
| ChatCompletion (messages : list (string * list Part))
| Stdout (line : string).

Definition is_execute (ev : Event) : bool :=
  match ev with
  | Execute _ => true
  | _ => false
  end.

(** The queries whose judgment was started, in order. *)
Definition judged (evs : list Event) : list string :=
  omap (fun ev => match ev with CallJudge query => Some query | _ => None end)
       evs.

(** The chat requests sent, in order. *)
Definition chats (evs : list Event) : list (list (string * list Part)) :=
  omap (fun ev => match ev with ChatCompletion messages => Some messages
                            | _ => None end)
       evs.

(** The lines written to standard output, in order. *)
Definition printed (evs : list Event) : list string :=
  omap (fun ev => match ev with Stdout line => Some line | _ => None end) evs.

(** The HTTP requests sent, in order. *)
Definition posted (evs : list Event) : list (string * PyVal) :=
  omap (fun ev => match ev with Post url payload => Some (url, payload)
                            | _ => None end)
       evs.

(** The SQL statements sent, in order. *)
Definition executed (evs : list Event) : list Sql :=
  omap (fun ev => match ev with Execute stmt => Some stmt | _ => None end) evs.

(** A computation that may raise, with the events it performed. *)
Definition M (A : Type) : Type := list Event * PyResult A.

#[export] Instance M_ret : MRet M := fun A a => ([], Ok a).

#[export] Instance M_bind : MBind M := fun A B f m =>
  match m with
  | (evs, Ok a) => let '(evs', r) := f a in (evs ++ evs', r)
  | (evs, Raise e) => (evs, Raise e)
  end.

Definition emit (ev : Event) : M unit := ([ev], Ok tt).

Definition lift {A : Type} (r : PyResult A) : M A := ([], r).

(** The run of a notebook cell or loop over a state [S]: the state it
    leaves behind (assignments made before an exception persist), the
    events, and the exception that ended it, if any. *)
Record Run (S : Type) : Type := mkRun {
  final : S;
  trace : list Event;
  raised : option PyExc
}.
Arguments mkRun {S} final trace raised.
Arguments final {S} r.
Arguments trace {S} r.
Arguments raised {S} r.

Definition finished {S : Type} (s : S) : Run S := mkRun s [] None.

Definition aborted {S : Type} (s : S) (evs : list Event) (e : PyExc) : Run S :=
  mkRun s evs (Some e).

(** [evs] happened, then [r]. *)
Definition after {S : Type} (evs : list Event) (r : Run S) : Run S :=
  mkRun (final r) (evs ++ trace r) (raised r).

(** The notebook's global variables. *)
Abbreviation namespace := (gmap string PyVal).

(** ** The corpus table *)

(** A row of [compliance_documents (id INTEGER, chunk TEXT, vector
    REAL[1536])]; every column is nullable. *)
Record Row : Type := mkRow {
  id : option Z;
  chunk : option string;
  vector : option (list Z)
}.

(** The contents of the database: the rows of [compliance_documents]
    when the table exists, the daemon switch, the token, and the
    registered embedding jobs (table, source column, destination column,
    model). *)
Record Database : Type := mkDatabase {
  compliance_documents : option (list Row);
  daemon_enabled : bool;
  openai_token : option string;
  embedding_jobs : list (string * string * string * string)
}.

(** The state of the connection's transaction.  psycopg2 opens a
    transaction before the first statement and keeps it until
    [conn.commit()]; the notebook never sets autocommit and never rolls
    back. *)
Inductive TxStatus : Type :=
| Idle
| InTransaction
| Failed.

(** The connection [conn]: what is committed, what the open transaction
    sees, and the transaction's state. *)
Record Session : Type := mkSession {
  committed : Database;
  visible : Database;
  status : TxStatus
}.

(** The statement raised: the transaction is aborted. *)
Definition refuse (s : Session) (e : PyExc) : Session * option PyExc :=
  (mkSession (committed s) (visible s) Failed, Some e).

(** The statement ran inside the transaction and left [db]. *)
Definition proceed (s : Session) (db : Database) : Session * option PyExc :=
  (mkSession (committed s) db InTransaction, None).

(** [cur.execute(stmt)] on the connection.  In an aborted transaction
    the server ignores every command; [CREATE TABLE] has no
    [IF NOT EXISTS]; [ALTER SYSTEM] cannot run inside a transaction block,
    and psycopg2 has always opened one; the two statements after it are
    taken as accepted when they run in a healthy transaction. *)
Definition execute (stmt : Sql) (s : Session) : Session * option PyExc :=
  match status s with
  | Failed => (s, Some InFailedSqlTransaction)
  | _ =>
      let db := visible s in
      match stmt with
      | CreateTable =>
          match compliance_documents db with
          | Some _ => refuse s DuplicateTable
          | None =>
              proceed s (mkDatabase (Some []) (daemon_enabled db)
                           (openai_token db) (embedding_jobs db))
          end
      | EnableDaemon => refuse s ActiveSqlTransaction
      | SetOpenAIToken =>
          proceed s (mkDatabase (compliance_documents db) (daemon_enabled db)
                       (Some "OPENAI_KEY") (embedding_jobs db))
      | AddEmbeddingJob =>
          proceed s (mkDatabase (compliance_documents db) (daemon_enabled db)
                       (openai_token db)
                       (embedding_jobs db ++
                        [("compliance_documents", "chunk", "vector",
                          "openai/text-embedding-3-small")]))
      | SelectNearest _ =>
          match compliance_documents db with
          | Some _ => proceed s db
          | None => refuse s UndefinedTable
          end
      end
  end.

(** [conn.commit()]: the transaction's changes become durable; the
    COMMIT of an aborted transaction is a rollback and raises nothing. *)
Definition commit (s : Session) : Session :=
  match status s with
  | Failed => mkSession (committed s) (committed s) Idle
  | _ => mkSession (visible s) (visible s) Idle
  end.

(** [cur.execute] of each statement in turn, stopping at the first
    exception. *)
Fixpoint execute_all (stmts : list Sql) (s : Session) : Run Session :=
  match stmts with
  | [] => finished s
  | stmt :: rest =>
      match execute stmt s with
      | (s', None) => after [Execute stmt] (execute_all rest s')
      | (s', Some e) => aborted s' [Execute stmt] e
      end
  end.

(** [psycopg2.connect(...)]: a new connection to a database with
    contents [db]. *)
Definition connect (db : Database) : Session := mkSession db db Idle.

(** The cell that creates the table: it opens the connection [conn],
    executes one statement and commits. *)
Definition create_table_cell (db : Database) : Run Session :=
  let conn := connect db in
  let r := execute_all [CreateTable] conn in
  match raised r with
  | None => mkRun (commit (final r)) (trace r ++ [Commit]) None
  | Some _ => r
  end.

(** The statements of the cell that registers the embedding job. *)
Definition embedding_job_statements : list Sql :=
  [EnableDaemon; SetOpenAIToken; AddEmbeddingJob].

(** The cell that registers the embedding job, on the connection [s]
    the first cell opened: three statements, then a commit. *)
Definition embedding_job_cell (s : Session) : Run Session :=
  let r := execute_all embedding_job_statements s in
  match raised r with
  | None => mkRun (commit (final r)) (trace r ++ [Commit]) None
  | Some _ => r
  end.

(** The two setup cells in order, on a database with contents [db]; a
    run stops at the first exception. *)
Definition setup_cells (db : Database) : Run Session :=
  let r := create_table_cell db in
  match raised r with
  | None => after (trace r) (embedding_job_cell (final r))
  | Some _ => r
  end.

(** The row's vector is not NULL (the embedding job has filled it). *)
Definition embedded (r : Row) : bool :=
  match vector r with
  | Some _ => true
  | None => false
  end.

(** What [fetchall] returns for a row of [SELECT id, vector]: a tuple,
    with [None] for NULL. *)
Definition fetch_tuple (r : Row) : PyVal :=
  PTuple [ from_option PInt PNone (id r);
           from_option (fun v => PList (PFloat <$> v)) PNone (vector r) ].

(** ** Concrete collaborators and inputs for worked scenarios *)

Definition sample_ingest_response : PyVal :=
  PResponse 200
    (Some (PDict [("markdown_url", PStr "https://files.example/act.md")])).

Definition sample_chunk_response : PyVal :=
  PResponse 200
    (Some (PDict [("chunks", PList [PStr "Section 1"; PStr "Section 2"])])).

(** Both services answer as their JSON contracts say. *)
Definition sample_post (url : string) (payload : PyVal) : PyVal :=
  if String.eqb url "https://api.ecliptor.com/ingest/pdf"
  then sample_ingest_response else sample_chunk_response.

(** Both services answer 404 with an HTML body. *)
Definition failing_post (url : string) (payload : PyVal) : PyVal :=
  PResponse 404 None.

Definition sample_rows : list Row :=
  [ mkRow (Some 1%Z) (Some "Section 1") (Some [40%Z]);
    mkRow (Some 2%Z) (Some "Section 2") (Some [10%Z]);
    mkRow (Some 3%Z) (Some "Section 3") None;
    mkRow (Some 4%Z) (Some "Section 4") (Some [20%Z]);
    mkRow (Some 5%Z) (Some "Section 5") (Some [30%Z]) ].

Definition sample_table (n : nat) : list Row := sample_rows.

Definition one_row_table (n : nat) : list Row :=
  [mkRow (Some 1%Z) (Some "Section 1") (Some [40%Z])].

Definition sample_embedding (text : string) : list Z :=
  [Z.of_nat (String.length text)].

Definition sample_distance (u v : list Z) : Z :=
  match u, v with
  | [x], [y] => ((x - y) * (x - y))%Z
  | _, _ => 0%Z
  end.

Definition empty_table (n : nat) : list Row := [].

(** A text with a NUL character in the middle. *)
Definition nul_text : string :=
  String "a" (String Ascii.zero (String "b" EmptyString)).

(** The database answers every SELECT. *)
Definition always_answers (n : nat) (query : string) : option PyExc := None.

(** The SELECTs run on a connection whose transaction is aborted. *)
Definition aborted_session (n : nat) (query : string) : option PyExc :=
  Some InFailedSqlTransaction.

Definition answers_maybe (messages : list (string * list Part))
    : PyResult (option string) :=
  Ok (Some "Maybe").

Definition answers_true_padded (messages : list (string * list Part))
    : PyResult (option string) :=
  Ok (Some "TRUE ").

(** The client cannot reach the service. *)
Definition client_fails (messages : list (string * list Part))
    : PyResult (option string) :=
  Raise (OtherError "APIConnectionError").

(** The LLM answers with a message without content. *)
Definition answers_nothing (messages : list (string * list Part))
    : PyResult (option string) :=
  Ok None.

(** Three records of the shape [check_compliance] subscripts. *)
Definition sample_records : list PyVal :=
  [PDict [("id", PInt 1)]; PDict [("id", PInt 2)]; PDict [("id", PInt 3)]].

(** Records as a richer loader could store them, with the chunk text,
    followed by a fourth record. *)
Definition rich_records : list PyVal :=
  [PDict [("chunk", PStr "Section 1"); ("id", PInt 1)];
   PDict [("id", PInt 2); ("chunk", PStr "Section 2")];
   PDict [("id", PInt 3)];
   PTuple [PInt 4; PNone]].

Definition sample_similar_chunks : dict (list PyVal) :=
  [("Is a co-signer required?", sample_records);
   ("Can I skip the credit check?", rich_records)].

Definition sample_verdicts : dict bool :=
  [("Is a co-signer required?", true);
   ("Can I skip the credit check?", false)].

(** Two rows the embedding job has not reached yet. *)
Definition unembedded_rows : list Row :=
  [ mkRow (Some 1%Z) (Some "Section 1") None;
    mkRow (Some 2%Z) (Some "Section 2") None ].

(** ** The notebook's cells *)

Definition LF : string := String (ascii_of_nat 10) EmptyString.

Section Notebook.

Set Default Proof Using "Type".

(** [requests.post(url, json=payload)]: the service's response, a
    [PResponse]. *)
Variable post : string -> PyVal -> PyVal.

(** The rows of [compliance_documents] when the [n]-th SELECT of the
    retrieval loop runs (other sessions and the embedding daemon may have
    written in between). *)
Variable table_at : nat -> list Row.

(** The exception, if any, that the server or the connection raises for
    the [n]-th SELECT of the retrieval loop (an aborted transaction, a
    missing table, a failure of the embedding service, ...). *)
Variable select_error : nat -> string -> option PyExc.

(** [openai_embedding('openai/text-embedding-3-small', text)] and the
    distance operator [<->], both evaluated by the server. *)
Variable openai_embedding : string -> list Z.
Variable distance : list Z -> list Z -> Z.

(** The server's ordering of REAL values (a total preorder: Postgres
    orders NaN above every number). *)
Variable real_leb : Z -> Z -> bool.

(** [client.chat.completions.create(model="gpt-4o", messages=...)]
    followed by [.choices[0].message.content]: the exception the client
    raises, or the content of the first choice, which is a str or None. *)
Variable chat_completion :
  list (string * list Part) -> PyResult (option string).

(** [status_code == 200]. *)
Definition is_200 (status_code : PyVal) : bool :=
  match status_code with
  | PInt n => (n =? 200)%Z
  | _ => false
  end.

(** *** Step 1: ingestion *)

Definition ingest_cell (ns : namespace) : Run namespace :=
  let pdf_url :=
    PStr "https://www.congress.gov/116/plaws/publ283/PLAW-116publ283.pdf" in
  let ns := <["pdf_url" := pdf_url]> ns in
  let api_url := "https://api.ecliptor.com/ingest/pdf" in
  let ns := <["api_url" := PStr api_url]> ns in
  let payload := PDict [("url", pdf_url)] in
  let ns := <["payload" := payload]> ns in
  let response := post api_url payload in
  let ns := <["response" := response]> ns in
  let evs := [Post api_url payload] in
  match getattr response "status_code" with
  | Raise e => aborted ns evs e
  | Ok status_code =>
      if is_200 status_code then
        match json response with
        | Raise e => aborted ns evs e
        | Ok result =>
            let ns := <["result" := result]> ns in
            match getattr result "markdown_url" with
            | Raise e => aborted ns evs e
            | Ok markdown_url =>
                mkRun (<["markdown_url" := markdown_url]> ns) evs None
            end
        end
      else mkRun ns evs None
  end.

(** *** Step 2: chunking *)

Definition chunk_cell (ns : namespace) : Run namespace :=
  let api_url := "https://api.ecliptor.com/chunk" in
  let ns := <["api_url" := PStr api_url]> ns in
  match ns !! "markdown_url" with
  | None => aborted ns [] NameError
  | Some markdown_url =>
      let payload := PDict [("url", markdown_url)] in
      let ns := <["payload" := payload]> ns in
      let response := post api_url payload in
      let ns := <["response" := response]> ns in
      let evs := [Post api_url payload] in
      let ns := <["chunks" := PList []]> ns in
      match getattr response "status_code" with
      | Raise e => aborted ns evs e
      | Ok status_code =>
          if is_200 status_code then
            match json response with
            | Raise e => aborted ns evs e
            | Ok result =>
                let ns := <["result" := result]> ns in
                match getattr response "chunks" with
                | Raise e => aborted ns evs e
                | Ok chunks => mkRun (<["chunks" := chunks]> ns) evs None
                end
            end
          else mkRun ns evs None
      end
  end.

(** *** Step 4: retrieval *)

(** The ORDER BY expression [vector <-> openai_embedding(model, query)];
    NULL when the row's vector is NULL. *)
Definition order_key (query : string) (r : Row) : option Z :=
  (fun v => distance v (openai_embedding query)) <$> vector r.

(** Ascending order with NULLs last (the server's default). *)
Definition key_leb (a b : option Z) : bool :=
  match a, b with
  | Some x, Some y => real_leb x y
  | _, None => true
  | None, Some _ => false
  end.

Definition nearer (query : string) (r1 r2 : Row) : Prop :=
  key_leb (order_key query r1) (order_key query r2).

(** [SELECT id, vector FROM compliance_documents ORDER BY ... LIMIT 3]. *)
Definition select_nearest (table : list Row) (query : string) : list Row :=
  take 3 (merge_sort (nearer query) table).

(** [cursor.execute(...)] then [cursor.fetchall()]. *)
Definition fetchall (table : list Row) (query : string) : list PyVal :=
  fetch_tuple <$> select_nearest table query.

(** The text has a NUL character; psycopg2 refuses such a parameter with
    a ValueError before anything is sent. *)
Fixpoint contains_nul (text : string) : bool :=
  match text with
  | EmptyString => false
  | String c rest => Ascii.eqb c Ascii.zero || contains_nul rest
  end.

(** [for query in query_list: ...; similar_chunks[query] = results],
    where [n] SELECTs have been answered before.  An exception of
    [cursor.execute] ends the loop; what was stored stays. *)
Fixpoint retrieval_loop (n : nat) (query_list : list string)
    (similar_chunks : dict (list PyVal)) : Run (dict (list PyVal)) :=
  match query_list with
  | [] => finished similar_chunks
  | query :: rest =>
      if contains_nul query then aborted similar_chunks [] ValueError
      else
        match select_error n query with
        | Some e => aborted similar_chunks [Execute (SelectNearest query)] e
        | None =>
            let results := fetchall (table_at n) query in
            after [Execute (SelectNearest query)]
              (retrieval_loop (S n) rest
                 (dict_set query results similar_chunks))
        end
  end.

(** The rows whose SELECT was answered: those before the first text that
    the driver or the server refuses. *)
Fixpoint answered (n : nat) (query_list : list string) : list string :=
  match query_list with
  | [] => []
  | query :: rest =>
      if contains_nul query then []
      else
        match select_error n query with
        | Some _ => []
        | None => query :: answered (S n) rest
        end
  end.

Definition retrieval_cell (query_list : list string)
    : Run (dict (list PyVal)) :=
  retrieval_loop 0 query_list [].

(** *** The judge *)

Definition system_message : string :=
  "You are a compliance checker. Respond with only 'True' or 'False'.".

(** The f-string of [check_compliance], fields already evaluated. *)
Definition prompt (query : string) (c0 c1 c2 : PyVal) : list Part :=
  [ Lit (LF ++ "    Question: "); Field (PStr query);
    Lit (LF ++ LF ++ "    Relevant texts:" ++ LF ++ "    1. "); Field c0;
    Lit (LF ++ "    2. "); Field c1;
    Lit (LF ++ "    3. "); Field c2;
    Lit (LF ++ LF
         ++ "    Based on the question and the relevant texts, determine if the response is compliant with ethical and legal standards and company policy." ++ LF
         ++ "    Return only a boolean value: True if compliant, False if not compliant. Do not return any other descriptive text, only the one word." ++ LF
         ++ "    ") ].

(** The [messages] argument of the chat request. *)
Definition judge_messages (query : string) (c0 c1 c2 : PyVal)
    : list (string * list Part) :=
  [("system", [Lit system_message]); ("user", prompt query c0 c1 c2)].

(** [content.strip().lower() == 'true']. *)
Definition parse_verdict (content : string) : bool :=
  String.eqb (PyText.lower (PyText.strip content)) "true".

(** [response.choices[0].message.content.strip().lower() == 'true'] on
    what the client returned: its exception propagates, and a content of
    None has no [strip]. *)
Definition read_verdict (completion : PyResult (option string))
    : PyResult bool :=
  match completion with
  | Raise e => Raise e
  | Ok None => Raise AttributeError
  | Ok (Some content) => Ok (parse_verdict content)
  end.

(** [chunks[i]['id']]. *)
Definition chunk_id (chunks : list PyVal) (i : Z) : PyResult PyVal :=
  match getitem (PList chunks) (KInt i) with
  | Ok record => getitem record (KStr "id")
  | Raise e => Raise e
  end.

Definition check_compliance (query : string) (chunks : list PyVal) : M bool :=
  _ ← emit (CallJudge query);
  c0 ← lift (chunk_id chunks 0);
  c1 ← lift (chunk_id chunks 1);
  c2 ← lift (chunk_id chunks 2);
  let messages := judge_messages query c0 c1 c2 in
  _ ← emit (ChatCompletion messages);
  lift (read_verdict (chat_completion messages)).

(** [for query, chunks in similar_chunks.items(): ...]. *)
Fixpoint compliance_loop (items : list (string * list PyVal))
    (compliance_results : dict bool) : Run (dict bool) :=
  match items with
  | [] => finished compliance_results
  | (query, chunks) :: rest =>
      match check_compliance query chunks with
      | (evs, Ok is_compliant) =>
          after evs
            (compliance_loop rest
               (dict_set query is_compliant compliance_results))
      | (evs, Raise e) => aborted compliance_results evs e
      end
  end.

(** The lines of the final report. *)
Definition report (compliance_results : dict bool) : list string :=
  "Non-compliant queries:"
  :: ((fun entry => String.append "- " (fst entry))
        <$> filter (fun entry => snd entry = false) compliance_results).

Definition compliance_cell (similar_chunks : dict (list PyVal))
    : Run (dict bool) :=
  let r := compliance_loop similar_chunks [] in
  match raised r with
  | None => mkRun (final r) (trace r ++ (Stdout <$> report (final r))) None
  | Some _ => r
  end.

(** The retrieval cell followed by the compliance cell, as one run over
    the pair of dictionaries; an exception of the retrieval cell ends the
    run. *)
Definition application (query_list : list string)
    : Run (dict (list PyVal) * dict bool) :=
  let r1 := retrieval_cell query_list in
  match raised r1 with
  | Some e => mkRun (final r1, []) (trace r1) (Some e)
  | None =>
      let r2 := compliance_cell (final r1) in
      mkRun (final r1, final r2) (trace r1 ++ trace r2) (raised r2)
  end.


(** [tauto] reads the arrow type of a collaborator as an implication;
    this variant forgets the collaborators the goal does not mention. *)
Ltac tauto_props :=
  try clear post; try clear table_at; try clear openai_embedding;
  try clear select_error; try clear distance; try clear real_leb;
  try clear chat_completion; tauto.

(** A string that is none of the listed ones. *)
Ltac not_listed :=
  let H := fresh in
  intros H;
  repeat (apply elem_of_cons in H as [H | H]; [discriminate H|]);
  by apply elem_of_nil in H.

(** ** Facts about [strip] and [lower] *)

Lemma to_lower_preimages (c : ascii) :
  (PyText.to_lower c = "t" -> c = "t" \/ c = "T")%char
  /\ (PyText.to_lower c = "r" -> c = "r" \/ c = "R")%char
  /\ (PyText.to_lower c = "u" -> c = "u" \/ c = "U")%char
  /\ (PyText.to_lower c = "e" -> c = "e" \/ c = "E")%char.
Proof.
  destruct c as [[] [] [] [] [] [] [] []]; vm_compute;
    repeat split; intros E; solve [discriminate E | auto].
Qed.

Lemma lower_true_inv (s : string) :
  PyText.lower s = "true" -> PyText.spells_true s.
Proof.
  destruct s as [|c1 [|c2 [|c3 [|c4 [|c5 s]]]]]; simpl; try discriminate.
  intros E. injection E as E1 E2 E3 E4.
  exists c1, c2, c3, c4. split; [reflexivity|].
  pose proof (to_lower_preimages c1) as (H1 & _).
  pose proof (to_lower_preimages c2) as (_ & H2 & _).
  pose proof (to_lower_preimages c3) as (_ & _ & H3 & _).
  pose proof (to_lower_preimages c4) as (_ & _ & _ & H4).
  auto.
Qed.

Lemma spells_true_lower (s : string) :
  PyText.spells_true s -> PyText.lower s = "true".
Proof.
  intros (c1 & c2 & c3 & c4 & -> & [-> | ->] & [-> | ->] & [-> | ->] & [-> | ->]);
    reflexivity.
Qed.

Lemma append_cons (c : ascii) (a b : string) :
  String c a +:+ b = String c (a +:+ b).
Proof. reflexivity. Qed.

Lemma append_nil (b : string) : EmptyString +:+ b = b.
Proof. reflexivity. Qed.

Lemma lstrip_split (s : string) :
  exists ws, s = ws +:+ PyText.lstrip s /\ PyText.all_space ws = true.
Proof.
  induction s as [|c s (ws & E & Hws)]; simpl.
  - exists EmptyString. auto.
  - destruct (PyText.isspace c) eqn:Hc.
    + exists (String c ws). rewrite append_cons. simpl. rewrite Hc, Hws.
      split; [congruence | reflexivity].
    + exists EmptyString. auto.
Qed.

Lemma rstrip_split (s : string) :
  exists ws, s = PyText.rstrip s +:+ ws /\ PyText.all_space ws = true.
Proof.
  induction s as [|c s (ws & E & Hws)]; simpl.
  - exists EmptyString. auto.
  - destruct (PyText.rstrip s) as [|d r] eqn:Hr.
    + rewrite append_nil in E. destruct (PyText.isspace c) eqn:Hc.
      * exists (String c ws). rewrite append_nil. simpl. rewrite Hc, Hws.
        split; [congruence | reflexivity].
      * exists ws. rewrite append_cons, append_nil.
        split; [congruence | assumption].
    + exists ws. rewrite append_cons. split; [congruence | assumption].
Qed.

Lemma lstrip_spaces (ws s : string) :
  PyText.all_space ws = true -> PyText.lstrip (ws +:+ s) = PyText.lstrip s.
Proof.
  induction ws as [|c ws IH]; [reflexivity|].
  rewrite append_cons. simpl.
  intros H. apply andb_true_iff in H as [Hc Hws]. rewrite Hc. auto.
Qed.

Lemma rstrip_spaces (ws : string) :
  PyText.all_space ws = true -> PyText.rstrip ws = EmptyString.
Proof.
  induction ws as [|c ws IH]; simpl; [reflexivity|].
  intros H. apply andb_true_iff in H as [Hc Hws]. rewrite (IH Hws), Hc. reflexivity.
Qed.

Lemma strip_padded_true (ws1 core ws2 : string) :
  PyText.all_space ws1 = true -> PyText.all_space ws2 = true ->
  PyText.spells_true core ->
  PyText.strip (ws1 +:+ core +:+ ws2) = core.
Proof.
  intros H1 H2 (c1 & c2 & c3 & c4 & -> & Hc1 & Hc2 & Hc3 & Hc4).
  unfold PyText.strip. rewrite lstrip_spaces by assumption.
  assert (Hs : PyText.isspace c1 = false /\ PyText.isspace c4 = false)
    by (destruct Hc1 as [-> | ->], Hc4 as [-> | ->]; split; reflexivity).
  destruct Hs as [Hs1 Hs4]. rewrite !append_cons, append_nil.
  simpl. rewrite Hs1. simpl.
  rewrite (rstrip_spaces ws2 H2), Hs4. reflexivity.
Qed.

(** The verdict is [true] exactly on a case variant of the word true
    padded with whitespace. *)
Lemma parse_verdict_true_iff (content : string) :
  parse_verdict content = true <->
  exists ws1 core ws2,
    content = ws1 +:+ core +:+ ws2
    /\ PyText.all_space ws1 = true /\ PyText.all_space ws2 = true
    /\ PyText.spells_true core.
Proof.
  unfold parse_verdict. rewrite String.eqb_eq. split.
  - intros E. apply lower_true_inv in E.
    destruct (lstrip_split content) as (ws1 & E1 & H1).
    destruct (rstrip_split (PyText.lstrip content)) as (ws2 & E2 & H2).
    exists ws1, (PyText.strip content), ws2. unfold PyText.strip in *.
    repeat split; try assumption. rewrite <- E2. exact E1.
  - intros (ws1 & core & ws2 & -> & H1 & H2 & Hc).
    rewrite strip_padded_true by assumption. apply spells_true_lower, Hc.
Qed.

(** ** The judge *)

(** [check_compliance] step by step: the three subscripts in order, then
    the LLM call, then the comparison. *)
Lemma check_compliance_unfold (query : string) (chunks : list PyVal) :
  check_compliance query chunks =
  match chunk_id chunks 0 with
  | Raise e => ([CallJudge query], Raise e)
  | Ok c0 =>
      match chunk_id chunks 1 with
      | Raise e => ([CallJudge query], Raise e)
      | Ok c1 =>
          match chunk_id chunks 2 with
          | Raise e => ([CallJudge query], Raise e)
          | Ok c2 =>
              ([CallJudge query; ChatCompletion (judge_messages query c0 c1 c2)],
               read_verdict (chat_completion (judge_messages query c0 c1 c2)))
          end
      end
  end.
Proof.
  unfold check_compliance, mbind, M_bind, emit, lift, mret, M_ret.
  destruct (chunk_id chunks 0); [|reflexivity].
  destruct (chunk_id chunks 1); [|reflexivity].
  destruct (chunk_id chunks 2); reflexivity.
Qed.

Lemma seq_index_out_of_range (items : list PyVal) (i : Z) :
  (Z.of_nat (length items) <= i)%Z -> seq_index items i = Raise IndexError.
Proof.
  intros H. unfold seq_index.
  destruct (Z.ltb_spec i 0); [lia|].
  destruct (Z.leb_spec 0 i), (Z.ltb_spec i (Z.of_nat (length items)));
    simpl; solve [reflexivity | lia].
Qed.

Lemma seq_index_errors (items : list PyVal) (i : Z) (e : PyExc) :
  seq_index items i = Raise e -> e = IndexError.
Proof.
  unfold seq_index. destruct (_ && _)%bool; [|congruence].
  destruct (items !! _); congruence.
Qed.

Lemma getitem_id_errors (record : PyVal) (e : PyExc) :
  getitem record (KStr "id") = Raise e -> e = TypeError \/ e = KeyError.
Proof.
  destruct record; simpl; try (intros [= <-]; auto).
  destruct (dict_get "id" entries); [discriminate | intros [= <-]; auto].
Qed.

Lemma chunk_id_out_of_range (chunks : list PyVal) (i : Z) :
  (Z.of_nat (length chunks) <= i)%Z -> chunk_id chunks i = Raise IndexError.
Proof.
  intros H. unfold chunk_id. simpl. rewrite seq_index_out_of_range by assumption.
  reflexivity.
Qed.

Lemma chunk_id_errors (chunks : list PyVal) (i : Z) (e : PyExc) :
  chunk_id chunks i = Raise e ->
  e = IndexError \/ e = TypeError \/ e = KeyError.
Proof.
  unfold chunk_id. simpl. destruct (seq_index chunks i) eqn:E.
  - intros H. apply getitem_id_errors in H. destruct H as [-> | ->]; auto.
  - intros [= <-]. apply seq_index_errors in E. auto.
Qed.

(** A tuple cannot be subscripted with a string. *)
Lemma chunk_id_of_tuple (chunks : list PyVal) (fields : list PyVal) :
  chunk_id (PTuple fields :: chunks) 0 = Raise TypeError.
Proof. reflexivity. Qed.

(** C1, as amended.  Whenever the three ids can be read and the LLM
    answers with a text, check_compliance sends one chat request and
    returns a boolean, never an exception: the verdict is true exactly
    when the LLM's text is a case variant of the word true surrounded by
    whitespace, and false for every other text. *)
Theorem check_compliance_verdict (query : string) (chunks : list PyVal)
    (c0 c1 c2 : PyVal) (content : string) :
  chunk_id chunks 0 = Ok c0 ->
  chunk_id chunks 1 = Ok c1 ->
  chunk_id chunks 2 = Ok c2 ->
  chat_completion (judge_messages query c0 c1 c2) = Ok (Some content) ->
  check_compliance query chunks =
    ([CallJudge query; ChatCompletion (judge_messages query c0 c1 c2)],
     Ok (parse_verdict content))
  /\ (parse_verdict content = true <->
      exists ws1 core ws2,
        content = ws1 +:+ core +:+ ws2
        /\ PyText.all_space ws1 = true /\ PyText.all_space ws2 = true
        /\ PyText.spells_true core).
Proof.
  intros H0 H1 H2 Hc. split.
  - rewrite check_compliance_unfold, H0, H1, H2, Hc. reflexivity.
  - apply parse_verdict_true_iff.
Qed.

(** C3, as amended.  With fewer than three records check_compliance
    raises while it builds the prompt and sends nothing to the LLM: the
    exception is Python's IndexError at the first missing record (always
    so for an empty list), or the TypeError or KeyError of an earlier
    record that cannot be subscripted with 'id'. *)
Theorem short_chunks_raise_before_llm (query : string) (chunks : list PyVal) :
  length chunks < 3 ->
  exists e,
    check_compliance query chunks = ([CallJudge query], Raise e)
    /\ (e = IndexError \/ e = TypeError \/ e = KeyError)
    /\ (chunks = [] -> e = IndexError).
Proof.
  intros Hlen. rewrite check_compliance_unfold.
  assert (H2 : chunk_id chunks 2 = Raise IndexError)
    by (apply chunk_id_out_of_range; lia).
  destruct (chunk_id chunks 0) as [c0|e0] eqn:E0.
  - destruct (chunk_id chunks 1) as [c1|e1] eqn:E1.
    + rewrite H2. exists IndexError. repeat split; auto.
    + exists e1. repeat split; [eauto using chunk_id_errors|].
      intros ->. rewrite chunk_id_out_of_range in E0 by (simpl; lia). discriminate.
  - exists e0. repeat split; [eauto using chunk_id_errors|].
    intros ->. rewrite chunk_id_out_of_range in E0 by (simpl; lia). congruence.
Qed.

(** ** Dictionaries *)

Lemma dict_get_set {V : Type} (k k' : string) (v : V) (d : dict V) :
  dict_get k' (dict_set k v d) =
  if String.eqb k k' then Some v else dict_get k' d.
Proof.
  induction d as [|[k0 v0] d IH]; simpl.
  - reflexivity.
  - destruct (String.eqb_spec k0 k) as [->|Hne]; simpl.
    + destruct (String.eqb k k'); reflexivity.
    + rewrite IH. destruct (String.eqb_spec k0 k') as [->|]; [|reflexivity].
      destruct (String.eqb_spec k k'); [congruence | reflexivity].
Qed.

Lemma elem_of_dict_set {V : Type} (k : string) (v : V) (d : dict V)
    (entry : string * V) :
  entry ∈ dict_set k v d -> entry = (k, v) \/ entry ∈ d.
Proof.
  induction d as [|[k0 v0] d IH]; simpl.
  - intros H%list_elem_of_singleton. auto.
  - destruct (String.eqb k0 k).
    + intros [->|H]%elem_of_cons; [auto | right; by apply elem_of_cons; right].
    + intros [->|H]%elem_of_cons; [right; apply elem_of_cons; auto|].
      destruct (IH H); [auto | right; apply elem_of_cons; auto].
Qed.

Lemma dict_keys_set_old {V : Type} (k : string) (v : V) (d : dict V) :
  k ∈ dict_keys d -> dict_keys (dict_set k v d) = dict_keys d.
Proof.
  unfold dict_keys. induction d as [|[k0 v0] d IH]; csimpl.
  - intros H. by apply elem_of_nil in H.
  - destruct (String.eqb_spec k0 k) as [->|Hne]; csimpl; [reflexivity|].
    intros [?|H]%elem_of_cons; [congruence|]. by rewrite IH.
Qed.

Lemma dict_keys_set_new {V : Type} (k : string) (v : V) (d : dict V) :
  k ∉ dict_keys d -> dict_keys (dict_set k v d) = dict_keys d ++ [k].
Proof.
  unfold dict_keys. induction d as [|[k0 v0] d IH]; csimpl; [reflexivity|].
  intros H. apply not_elem_of_cons in H as [Hne H].
  destruct (String.eqb_spec k0 k) as [->|_]; [congruence|].
  csimpl. by rewrite IH.
Qed.

Lemma dict_keys_set {V : Type} (k : string) (v : V) (d : dict V) :
  dict_keys (dict_set k v d) =
  if decide (k ∈ dict_keys d) then dict_keys d else dict_keys d ++ [k].
Proof.
  case_decide; [by apply dict_keys_set_old | by apply dict_keys_set_new].
Qed.

Lemma dict_keys_set_elem {V : Type} (k q : string) (v : V) (d : dict V) :
  q ∈ dict_keys (dict_set k v d) <-> q = k \/ q ∈ dict_keys d.
Proof.
  rewrite dict_keys_set. case_decide as Hin.
  - split; [auto | intros [->|?]; assumption].
  - rewrite elem_of_app, list_elem_of_singleton. tauto_props.
Qed.

Lemma dict_keys_set_NoDup {V : Type} (k : string) (v : V) (d : dict V) :
  NoDup (dict_keys d) -> NoDup (dict_keys (dict_set k v d)).
Proof.
  intros Hd. rewrite dict_keys_set. case_decide as Hin; [assumption|].
  apply NoDup_app. repeat split; [assumption | | apply NoDup_singleton].
  intros x Hx ->%list_elem_of_singleton. contradiction.
Qed.

(** Assigning to a dictionary extends its key sequence at the end, or
    leaves it as it is. *)
Lemma dict_keys_set_prefix {V : Type} (k : string) (v : V) (d : dict V) :
  dict_keys d `prefix_of` dict_keys (dict_set k v d).
Proof.
  rewrite dict_keys_set. case_decide; [reflexivity | by apply prefix_app_r].
Qed.

(** ** Retrieval *)

Lemma fetchall_length (table : list Row) (query : string) :
  length (fetchall table query) = min 3 (length table).
Proof.
  unfold fetchall, select_nearest.
  rewrite length_fmap, length_take.
  by rewrite (Permutation_length (merge_sort_Permutation _ table)).
Qed.

Lemma answered_prefix (query_list : list string) (n : nat) :
  answered n query_list `prefix_of` query_list.
Proof.
  revert n. induction query_list as [|query rest IH]; intros n; simpl;
    [reflexivity|].
  destruct (contains_nul query); [apply prefix_nil|].
  destruct (select_error n query); [apply prefix_nil|].
  apply prefix_cons, IH.
Qed.

(** When the driver accepts every text and the server answers every
    SELECT, every row is answered. *)
Lemma answered_all (query_list : list string) (n : nat) :
  (forall i query,
     query_list !! i = Some query ->
     contains_nul query = false /\ select_error (n + i) query = None) ->
  answered n query_list = query_list.
Proof.
  revert n. induction query_list as [|query rest IH]; intros n Hok; simpl;
    [reflexivity|].
  destruct (Hok 0 query eq_refl) as [-> Hs]. rewrite Nat.add_0_r in Hs.
  rewrite Hs. f_equal. apply IH. intros i q Hi.
  rewrite Nat.add_succ_l, <- Nat.add_succ_r. by apply (Hok (S i)).
Qed.

(** The loop ends without an exception exactly when every row was
    answered. *)
Lemma retrieval_loop_raised (query_list : list string) (n : nat)
    (similar_chunks : dict (list PyVal)) :
  raised (retrieval_loop n query_list similar_chunks) = None
  <-> answered n query_list = query_list.
Proof.
  revert n similar_chunks.
  induction query_list as [|query rest IH]; intros n sc; simpl; [done|].
  destruct (contains_nul query); [done|].
  destruct (select_error n query); [done|].
  cbn [after raised]. rewrite IH. split; [congruence | by intros [= ->]].
Qed.

(** An exception of the loop is the driver's ValueError for a text with a
    NUL character, or what the server raised for a SELECT. *)
Lemma retrieval_loop_exception (query_list : list string) (n : nat)
    (similar_chunks : dict (list PyVal)) (e : PyExc) :
  raised (retrieval_loop n query_list similar_chunks) = Some e ->
  exists i query,
    query_list !! i = Some query
    /\ ((contains_nul query = true /\ e = ValueError)
        \/ (contains_nul query = false
            /\ select_error (n + i) query = Some e)).
Proof.
  revert n similar_chunks.
  induction query_list as [|query rest IH]; intros n sc; simpl; [done|].
  destruct (contains_nul query) eqn:Hnul.
  { intros [= <-]. exists 0, query. auto. }
  destruct (select_error n query) as [e'|] eqn:Hsel.
  { intros [= <-]. exists 0, query. rewrite Nat.add_0_r. auto. }
  cbn [after raised]. intros (i & q & Hi & H)%IH.
  exists (S i), q. by rewrite Nat.add_succ_r.
Qed.

(** The SELECTs sent are those of an initial part of the dataset, in row
    order: of the answered rows, and of the row the server refused. *)
Lemma retrieval_loop_trace (query_list : list string) (n : nat)
    (similar_chunks : dict (list PyVal)) :
  exists sent,
    trace (retrieval_loop n query_list similar_chunks)
      = (fun query => Execute (SelectNearest query)) <$> sent
    /\ answered n query_list `prefix_of` sent
    /\ sent `prefix_of` query_list.
Proof.
  revert n similar_chunks.
  induction query_list as [|query rest IH]; intros n sc; simpl.
  - by exists [].
  - destruct (contains_nul query).
    { exists []. split; [reflexivity|]. split; apply prefix_nil. }
    destruct (select_error n query).
    { exists [query]. split; [reflexivity|].
      split; [apply prefix_nil | apply prefix_cons, prefix_nil]. }
    destruct (IH (S n) (dict_set query (fetchall (table_at n) query) sc))
      as (sent & Ht & H1 & H2).
    exists (query :: sent). cbn [after trace]. rewrite Ht.
    split; [reflexivity|]. split; by apply prefix_cons.
Qed.

(** Every entry left by the loop was there before or is what [fetchall]
    returned for an answered row of the dataset. *)
Lemma retrieval_loop_entries (query_list : list string) (n : nat)
    (similar_chunks : dict (list PyVal)) (query : string)
    (results : list PyVal) :
  (query, results) ∈ final (retrieval_loop n query_list similar_chunks) ->
  (query, results) ∈ similar_chunks
  \/ exists i, answered n query_list !! i = Some query
               /\ query_list !! i = Some query
               /\ results = fetchall (table_at (n + i)) query.
Proof.
  revert n similar_chunks.
  induction query_list as [|q rest IH]; intros n sc; simpl; [auto|].
  destruct (contains_nul q); [auto|].
  destruct (select_error n q); [auto|].
  cbn [after final]. intros [H | (i & Ha & Hi & ->)]%IH.
  - apply elem_of_dict_set in H as [[= -> ->] | H]; [|auto].
    right. exists 0. by rewrite Nat.add_0_r.
  - right. exists (S i). by rewrite Nat.add_succ_r.
Qed.

Lemma retrieval_loop_absent (query_list : list string) (n : nat)
    (similar_chunks : dict (list PyVal)) (query : string) :
  query ∉ answered n query_list ->
  dict_get query (final (retrieval_loop n query_list similar_chunks))
    = dict_get query similar_chunks.
Proof.
  revert n similar_chunks.
  induction query_list as [|q rest IH]; intros n sc; simpl; [done|].
  destruct (contains_nul q); [done|].
  destruct (select_error n q); [done|].
  cbn [after final].
  intros [Hne Hrest]%not_elem_of_cons. rewrite IH by assumption.
  rewrite dict_get_set. destruct (String.eqb_spec q query); [congruence | done].
Qed.

(** The entry of a text holds what [fetchall] returned for the last
    answered row with that text. *)
Lemma retrieval_loop_last (query_list : list string) (n : nat)
    (similar_chunks : dict (list PyVal)) (query : string) (i : nat) :
  answered n query_list !! i = Some query ->
  (forall j, i < j -> answered n query_list !! j <> Some query) ->
  dict_get query (final (retrieval_loop n query_list similar_chunks))
    = Some (fetchall (table_at (n + i)) query).
Proof.
  revert n similar_chunks i.
  induction query_list as [|q rest IH]; intros n sc i; simpl; [done|].
  destruct (contains_nul q); [done|].
  destruct (select_error n q); [done|].
  cbn [after final].
  destruct i as [|i]; simpl.
  - intros [= ->] Hlast. rewrite retrieval_loop_absent.
    + rewrite dict_get_set, String.eqb_refl. by rewrite Nat.add_0_r.
    + intros (j & Hj)%list_elem_of_lookup_1. by apply (Hlast (S j)); [lia|].
  - intros Hi Hlast. rewrite (IH (S n) _ i Hi).
    + by rewrite Nat.add_succ_r.
    + intros j Hj. apply (Hlast (S j)). lia.
Qed.

Lemma retrieval_loop_keys (query_list : list string) (n : nat)
    (similar_chunks : dict (list PyVal)) :
  NoDup (dict_keys similar_chunks) ->
  NoDup (dict_keys (final (retrieval_loop n query_list similar_chunks)))
  /\ forall query,
       query ∈ dict_keys (final (retrieval_loop n query_list similar_chunks))
       <-> query ∈ dict_keys similar_chunks \/ query ∈ answered n query_list.
Proof.
  revert n similar_chunks.
  assert (Hstop : forall sc : dict (list PyVal),
             NoDup (dict_keys sc) ->
             NoDup (dict_keys sc)
             /\ forall query : string,
                  query ∈ dict_keys sc <-> query ∈ dict_keys sc \/ query ∈ @nil string).
  { intros sc Hsc. split; [assumption|]. intros query.
    rewrite elem_of_nil. tauto_props. }
  induction query_list as [|q rest IH]; intros n sc Hsc; simpl;
    [by apply Hstop|].
  destruct (contains_nul q); [by apply Hstop|].
  destruct (select_error n q); [by apply Hstop|].
  cbn [after final].
  destruct (IH (S n) (dict_set q (fetchall (table_at n) q) sc)) as [Hnd Hiff];
    [by apply dict_keys_set_NoDup|].
  split; [assumption|]. intros query.
  rewrite Hiff, dict_keys_set_elem, elem_of_cons. tauto_props.
Qed.

(** What the pipeline hands to the judge: tuples. *)
Lemma fetchall_head_is_tuple (table : list Row) (query : string) :
  fetchall table query <> [] ->
  exists fields rest, fetchall table query = PTuple fields :: rest.
Proof.
  unfold fetchall. destruct (select_nearest table query) as [|r rows]; [done|].
  intros _. csimpl. unfold fetch_tuple at 1. eauto.
Qed.

Section Ordering.

Hypothesis real_leb_total :
  forall x y : Z, real_leb x y = true \/ real_leb y x = true.

Hypothesis real_leb_trans :
  forall x y z : Z,
    real_leb x y = true -> real_leb y z = true -> real_leb x z = true.

#[local] Instance nearer_total (query : string) : Total (nearer query).
Proof using real_leb_total.
  intros r1 r2. unfold nearer, key_leb.
  destruct (order_key query r1) as [x|], (order_key query r2) as [y|];
    simpl; auto.
  destruct (real_leb_total x y) as [-> | ->]; simpl; auto.
Qed.

#[local] Instance nearer_trans (query : string) : Transitive (nearer query).
Proof using real_leb_trans.
  intros r1 r2 r3. unfold nearer, key_leb.
  destruct (order_key query r1) as [x|], (order_key query r2) as [y|],
    (order_key query r3) as [z|]; simpl; auto; try tauto_props.
  rewrite !Is_true_true. apply real_leb_trans.
Qed.

(** The selected rows are the head of the table sorted by distance. *)
Lemma select_nearest_spec (table : list Row) (query : string) :
  exists rest,
    select_nearest table query ++ rest ≡ₚ table
    /\ StronglySorted (nearer query) (select_nearest table query ++ rest).
Proof using real_leb_total real_leb_trans.
  exists (drop 3 (merge_sort (nearer query) table)).
  unfold select_nearest. rewrite take_drop. split.
  - apply merge_sort_Permutation.
  - apply StronglySorted_merge_sort; apply _.
Qed.

(** C2, as amended.  The entry stored for a query is what fetchall
    returned for one of the rows of the dataset with that text: (id,
    vector) tuples, min(3, table size) of them, for the rows that come
    first when the table is ordered ascending by the distance between the
    stored vector and the embedding of the query text (NULL vectors
    last). *)
Theorem retrieval_result_shape (query_list : list string) (query : string)
    (results : list PyVal) :
  (query, results) ∈ final (retrieval_cell query_list) ->
  exists (i : nat) (rows rest : list Row),
    query_list !! i = Some query
    /\ results = fetch_tuple <$> rows
    /\ length results = min 3 (length (table_at i))
    /\ rows ++ rest ≡ₚ table_at i
    /\ StronglySorted (nearer query) (rows ++ rest).
Proof using real_leb_total real_leb_trans.
  intros [H | (i & _ & Hi & ->)]%retrieval_loop_entries;
    [by apply elem_of_nil in H|].
  destruct (select_nearest_spec (table_at i) query) as (rest & Hperm & Hsorted).
  exists i, (select_nearest (table_at i) query), rest.
  repeat split; try assumption. apply fetchall_length.
Qed.

End Ordering.

Lemma dict_get_of_key {V : Type} (k : string) (d : dict V) :
  k ∈ dict_keys d -> exists v, dict_get k d = Some v.
Proof.
  unfold dict_keys. induction d as [|[k0 v0] d IH]; csimpl.
  - intros H. by apply elem_of_nil in H.
  - destruct (String.eqb_spec k0 k) as [->|Hne]; [eauto|].
    intros [?|H]%elem_of_cons; [congruence | auto].
Qed.

Lemma retrieval_cell_keys (query_list : list string) :
  NoDup (dict_keys (final (retrieval_cell query_list)))
  /\ forall query,
       query ∈ dict_keys (final (retrieval_cell query_list))
       <-> query ∈ answered 0 query_list.
Proof.
  destruct (retrieval_loop_keys query_list 0 []) as [Hnd Hiff];
    [apply NoDup_nil_2|].
  split; [exact Hnd|]. intros query. rewrite (Hiff query).
  unfold dict_keys. csimpl. rewrite elem_of_nil. tauto_props.
Qed.


(** C8.  Every non-empty result the retrieval loop stores starts with a
    tuple, exactly as fetchall returned it; check_compliance subscripts
    that tuple with the string 'id' and ends in a TypeError before any
    request to the LLM. *)
Theorem pipeline_records_raise_type_error (query_list : list string)
    (query : string) (chunks : list PyVal) :
  (query, chunks) ∈ final (retrieval_cell query_list) ->
  chunks <> [] ->
  (exists fields rest,
     chunks = PTuple fields :: rest
     /\ getitem (PTuple fields) (KStr "id") = Raise TypeError)
  /\ check_compliance query chunks = ([CallJudge query], Raise TypeError).
Proof.
  intros [H | (i & _ & Hi & ->)]%retrieval_loop_entries Hne;
    [by apply elem_of_nil in H|].
  destruct (fetchall_head_is_tuple _ _ Hne) as (fields & rest & E).
  rewrite E. split; [by exists fields, rest|].
  rewrite check_compliance_unfold, chunk_id_of_tuple. reflexivity.
Qed.

(** ** The compliance loop *)

Lemma check_compliance_events (query : string) (chunks : list PyVal) :
  Forall (fun ev => is_execute ev = false) (fst (check_compliance query chunks))
  /\ judged (fst (check_compliance query chunks)) = [query].
Proof.
  rewrite check_compliance_unfold.
  destruct (chunk_id chunks 0); [|by repeat constructor].
  destruct (chunk_id chunks 1); [|by repeat constructor].
  destruct (chunk_id chunks 2); by repeat constructor.
Qed.

Lemma judged_app (evs1 evs2 : list Event) :
  judged (evs1 ++ evs2) = judged evs1 ++ judged evs2.
Proof. apply omap_app. Qed.

(** The loop extends [compliance_results] by the keys of the items it
    judged, in order; it never touches the database. *)
Lemma compliance_loop_keys (items : list (string * list PyVal))
    (compliance_results : dict bool) :
  NoDup (dict_keys compliance_results ++ dict_keys items) ->
  let r := compliance_loop items compliance_results in
  Forall (fun ev => is_execute ev = false) (trace r)
  /\ judged (trace r) `prefix_of` dict_keys items
  /\ exists k,
       dict_keys (final r) = dict_keys compliance_results ++ take k (dict_keys items)
       /\ (raised r = None -> k = length items).
Proof.
  revert compliance_results.
  induction items as [|[query chunks] rest IH]; intros res Hnd; simpl.
  - repeat split; [constructor | reflexivity |].
    exists 0. by rewrite app_nil_r.
  - destruct (check_compliance_events query chunks) as [Hex Hj].
    destruct (check_compliance query chunks) as [evs [is_compliant|e]];
      simpl in *.
    + assert (Hq : query ∉ dict_keys res).
      { apply NoDup_app in Hnd as (_ & Hnd & _). intros Hin.
        apply (Hnd _ Hin). unfold dict_keys. csimpl. apply elem_of_cons. auto. }
      assert (Hk : dict_keys (dict_set query is_compliant res)
                   = dict_keys res ++ [query])
        by (by apply dict_keys_set_new).
      destruct (IH (dict_set query is_compliant res)) as (Hex' & Hj' & k & Hkeys & Hk').
      { rewrite Hk, <- app_assoc. exact Hnd. }
      repeat split.
      * by apply Forall_app.
      * rewrite judged_app, Hj. unfold dict_keys. csimpl.
        by apply prefix_cons.
      * exists (S k). split; [|intros H; f_equal; auto].
        rewrite Hkeys, Hk, <- app_assoc. reflexivity.
    + repeat split; [assumption | |].
      * rewrite Hj. unfold dict_keys. csimpl. apply prefix_cons, prefix_nil.
      * exists 0. split; [by rewrite app_nil_r | discriminate].
Qed.

Lemma compliance_cell_keys (similar_chunks : dict (list PyVal)) :
  NoDup (dict_keys similar_chunks) ->
  let r := compliance_cell similar_chunks in
  Forall (fun ev => is_execute ev = false) (trace r)
  /\ judged (trace r) `prefix_of` dict_keys similar_chunks
  /\ dict_keys (final r) `prefix_of` dict_keys similar_chunks
  /\ (raised r = None -> dict_keys (final r) = dict_keys similar_chunks).
Proof.
  intros Hnd. unfold compliance_cell.
  destruct (compliance_loop_keys similar_chunks []) as (Hex & Hj & k & Hkeys & Hk);
    [exact Hnd|].
  simpl in Hkeys.
  assert (Hprint : forall lines : list string,
             Forall (fun ev => is_execute ev = false) (Stdout <$> lines)
             /\ judged (Stdout <$> lines) = []).
  { induction lines as [|l lines [IH1 IH2]]; csimpl; split;
      try constructor; done. }
  destruct (raised (compliance_loop similar_chunks [])) as [e|] eqn:Hr;
    cbn [final trace raised].
  - rewrite ?Hr. split; [assumption|]. split; [assumption|].
    split; [|discriminate]. rewrite Hkeys. apply prefix_take.
  - destruct (Hprint (report (final (compliance_loop similar_chunks [])))) as [P1 P2].
    split; [by apply Forall_app|].
    split; [by rewrite judged_app, P2, app_nil_r|].
    split; [rewrite Hkeys; apply prefix_take|].
    intros _. rewrite Hkeys, Hk by reflexivity.
    rewrite <- (length_fmap fst). apply firstn_all.
Qed.



(** ** The HTTP cells *)

Lemma getattr_status_code (status : Z) (body : option PyVal) :
  getattr (PResponse status body) "status_code" = Ok (PInt status).
Proof. reflexivity. Qed.

Lemma response_has_no_chunks (status : Z) (body : option PyVal) :
  getattr (PResponse status body) "chunks" = Raise AttributeError.
Proof. reflexivity. Qed.

Lemma dict_has_no_markdown_url (entries : list (string * PyVal)) :
  getattr (PDict entries) "markdown_url" = Raise AttributeError.
Proof. reflexivity. Qed.

(** C4, as amended.  When the services answer with a status other than
    200, neither cell raises: the ingestion cell leaves markdown_url as it
    was (unassigned in a fresh kernel), and the chunking cell, when
    markdown_url is assigned, leaves chunks as the empty list. *)
Theorem non_200_response_is_silent (ns : namespace) (status : Z) :
  status <> 200%Z ->
  (forall url payload, exists body, post url payload = PResponse status body) ->
  raised (ingest_cell ns) = None
  /\ final (ingest_cell ns) !! "markdown_url" = ns !! "markdown_url"
  /\ (is_Some (ns !! "markdown_url") ->
      raised (chunk_cell ns) = None
      /\ final (chunk_cell ns) !! "chunks" = Some (PList [])).
Proof.
  intros Hstatus Hpost.
  assert (H200 : is_200 (PInt status) = false) by (simpl; lia).
  split; [|split].
  - unfold ingest_cell.
    destruct (Hpost "https://api.ecliptor.com/ingest/pdf"
                (PDict [("url", PStr "https://www.congress.gov/116/plaws/publ283/PLAW-116publ283.pdf")]))
      as [body ->].
    rewrite getattr_status_code, H200. reflexivity.
  - unfold ingest_cell.
    destruct (Hpost "https://api.ecliptor.com/ingest/pdf"
                (PDict [("url", PStr "https://www.congress.gov/116/plaws/publ283/PLAW-116publ283.pdf")]))
      as [body ->].
    rewrite getattr_status_code, H200. cbn [final].
    by rewrite !lookup_insert_ne.
  - intros [markdown_url Hurl]. unfold chunk_cell.
    rewrite lookup_insert_ne, Hurl by done.
    destruct (Hpost "https://api.ecliptor.com/chunk"
                (PDict [("url", markdown_url)])) as [body ->].
    rewrite getattr_status_code, H200. cbn [final raised].
    split; [reflexivity|]. by rewrite lookup_insert_eq.
Qed.

(** C9.  When the services answer as their JSON contracts say, whatever
    the status code (so for every 2xx code), the ingestion cell never
    assigns markdown_url and the chunking cell leaves chunks the empty
    list: the cells read markdown_url as an attribute of the decoded dict
    and chunks as an attribute of the response object, and on status 200
    both accesses raise AttributeError (any other status skips them).  In
    a kernel where markdown_url was unassigned the chunking cell then
    stops with a NameError. *)
Theorem attribute_access_misses_json_fields (ns : namespace) (status : Z)
    (markdown_url : string) (chunks : list string) :
  (forall payload,
     post "https://api.ecliptor.com/ingest/pdf" payload
     = PResponse status (Some (PDict [("markdown_url", PStr markdown_url)]))) ->
  (forall payload,
     post "https://api.ecliptor.com/chunk" payload
     = PResponse status (Some (PDict [("chunks", PList (PStr <$> chunks))]))) ->
  raised (ingest_cell ns)
    = (if (status =? 200)%Z then Some AttributeError else None)
  /\ final (ingest_cell ns) !! "markdown_url" = ns !! "markdown_url"
  /\ (is_Some (ns !! "markdown_url") ->
      raised (chunk_cell ns)
        = (if (status =? 200)%Z then Some AttributeError else None)
      /\ final (chunk_cell ns) !! "chunks" = Some (PList []))
  /\ (ns !! "markdown_url" = None ->
      raised (chunk_cell (final (ingest_cell ns))) = Some NameError).
Proof.
  intros Hingest Hchunk.
  assert (Hi : raised (ingest_cell ns)
                 = (if (status =? 200)%Z then Some AttributeError else None)
               /\ final (ingest_cell ns) !! "markdown_url" = ns !! "markdown_url").
  { unfold ingest_cell. rewrite Hingest, getattr_status_code.
    cbn [is_200 json]. destruct (status =? 200)%Z.
    - rewrite dict_has_no_markdown_url. cbn [aborted final raised].
      split; [reflexivity|]. by rewrite !lookup_insert_ne.
    - cbn [final raised]. split; [reflexivity|]. by rewrite !lookup_insert_ne. }
  destruct Hi as [Hi1 Hi2]. split; [exact Hi1|]. split; [exact Hi2|]. split.
  - intros [prev Hprev]. unfold chunk_cell.
    rewrite lookup_insert_ne, Hprev by done.
    rewrite Hchunk, getattr_status_code.
    cbn [is_200 json]. destruct (status =? 200)%Z.
    + rewrite response_has_no_chunks. cbn [aborted final raised].
      split; [reflexivity|].
      rewrite lookup_insert_ne by done. by rewrite lookup_insert_eq.
    + cbn [final raised]. split; [reflexivity|]. by rewrite lookup_insert_eq.
  - intros Hnone. unfold chunk_cell at 1.
    rewrite lookup_insert_ne, Hi2, Hnone by done. reflexivity.
Qed.

(** ** The corpus after setup *)

Lemma execute_in_failed (stmt : Sql) (s : Session) :
  status s = Failed -> execute stmt s = (s, Some InFailedSqlTransaction).
Proof. intros H. unfold execute. by rewrite H. Qed.

(** The cell that registers the embedding job never gets past its first
    statement. *)
Lemma embedding_job_cell_raises (s : Session) :
  raised (embedding_job_cell s)
    = Some (match status s with
            | Failed => InFailedSqlTransaction
            | _ => ActiveSqlTransaction
            end)
  /\ trace (embedding_job_cell s) = [Execute EnableDaemon]
  /\ status (final (embedding_job_cell s)) = Failed
  /\ committed (final (embedding_job_cell s)) = committed s
  /\ visible (final (embedding_job_cell s)) = visible s.
Proof.
  unfold embedding_job_cell, embedding_job_statements.
  cbn [execute_all]. unfold execute.
  destruct s as [c v st]. destruct st; cbn; repeat split.
Qed.

(** When the first SELECT is refused, the retrieval cell stores nothing. *)
Lemma retrieval_cell_refused (query : string) (rest : list string)
    (e : PyExc) :
  select_error 0 query = Some e ->
  raised (retrieval_cell (query :: rest))
    = Some (if contains_nul query then ValueError else e)
  /\ final (retrieval_cell (query :: rest)) = [].
Proof.
  intros He. unfold retrieval_cell. cbn [retrieval_loop].
  destruct (contains_nul query); [split; reflexivity|].
  rewrite He. split; reflexivity.
Qed.

(** C5, evaluated on the code.  On a database where the table does not
    exist yet, the first setup cell creates and
    commits an empty table and the second one raises at its first
    statement, ALTER SYSTEM, which cannot run inside the transaction
    psycopg2 has opened: no embedding job is registered, no statement
    that writes a chunk is ever executed, and the table has no rows.  The
    transaction stays aborted, so every later statement on the connection
    is refused: a retrieval cell that runs on it raises at its first
    SELECT and stores nothing (over the empty table, another connection
    would get the empty list). *)
Theorem setup_leaves_table_empty (db : Database) :
  compliance_documents db = None ->
  let r := setup_cells db in
  raised r = Some ActiveSqlTransaction
  /\ trace r = [Execute CreateTable; Commit; Execute EnableDaemon]
  /\ compliance_documents (committed (final r)) = Some []
  /\ compliance_documents (visible (final r)) = Some []
  /\ embedding_jobs (visible (final r)) = embedding_jobs db
  /\ status (final r) = Failed
  /\ (forall stmt,
        snd (execute stmt (final r)) = Some InFailedSqlTransaction)
  /\ (forall query, fetchall [] query = [])
  /\ ((forall n query,
         select_error n query
         = snd (execute (SelectNearest query) (final r))) ->
      forall query rest,
        raised (retrieval_cell (query :: rest))
          = Some (if contains_nul query
                  then ValueError else InFailedSqlTransaction)
        /\ final (retrieval_cell (query :: rest)) = []).
Proof.
  intros Hnone. cbn zeta.
  assert (Hrun : setup_cells db
                 = aborted
                     (mkSession
                        (mkDatabase (Some []) (daemon_enabled db)
                           (openai_token db) (embedding_jobs db))
                        (mkDatabase (Some []) (daemon_enabled db)
                           (openai_token db) (embedding_jobs db))
                        Failed)
                     [Execute CreateTable; Commit; Execute EnableDaemon]
                     ActiveSqlTransaction).
  { unfold setup_cells, create_table_cell, connect.
    cbn [execute_all]. unfold execute. cbn [status visible].
    rewrite Hnone. reflexivity. }
  rewrite Hrun. cbn [aborted raised trace final].
  assert (Hrefused : forall stmt,
             snd (execute stmt
                    (mkSession
                       (mkDatabase (Some []) (daemon_enabled db)
                          (openai_token db) (embedding_jobs db))
                       (mkDatabase (Some []) (daemon_enabled db)
                          (openai_token db) (embedding_jobs db))
                       Failed))
             = Some InFailedSqlTransaction)
    by (intros stmt; reflexivity).
  do 6 (split; [reflexivity|]). split; [exact Hrefused|].
  split; [reflexivity|].
  intros Hsel query rest. apply retrieval_cell_refused.
  by rewrite Hsel, Hrefused.
Qed.

(** ** Further properties of the notebook's code *)

(** *** The verdict comparison *)

Lemma to_lower_isspace (c : ascii) :
  PyText.isspace (PyText.to_lower c) = PyText.isspace c
  /\ PyText.to_lower (PyText.to_lower c) = PyText.to_lower c.
Proof. destruct c as [[] [] [] [] [] [] [] []]; vm_compute; split; reflexivity. Qed.

Lemma lstrip_all_space (s : string) :
  PyText.all_space s = true -> PyText.lstrip s = EmptyString.
Proof.
  induction s as [|c s IH]; simpl; [reflexivity|].
  intros H. apply andb_true_iff in H as [Hc Hs]. rewrite Hc. auto.
Qed.

Lemma lstrip_append (s t : string) :
  PyText.lstrip (s +:+ t)
  = if PyText.all_space s then PyText.lstrip t else PyText.lstrip s +:+ t.
Proof.
  induction s as [|c s IH]; [reflexivity|].
  rewrite append_cons. simpl. destruct (PyText.isspace c); simpl; [exact IH|].
  by rewrite append_cons.
Qed.

Lemma rstrip_append_spaces (s ws : string) :
  PyText.all_space ws = true -> PyText.rstrip (s +:+ ws) = PyText.rstrip s.
Proof.
  intros Hws. induction s as [|c s IH].
  - rewrite append_nil. by apply rstrip_spaces.
  - rewrite append_cons. simpl. by rewrite IH.
Qed.

Lemma strip_padding (ws1 s ws2 : string) :
  PyText.all_space ws1 = true -> PyText.all_space ws2 = true ->
  PyText.strip (ws1 +:+ s +:+ ws2) = PyText.strip s.
Proof.
  intros H1 H2. unfold PyText.strip.
  rewrite lstrip_spaces by assumption. rewrite lstrip_append.
  destruct (PyText.all_space s) eqn:Hs.
  - by rewrite (lstrip_all_space ws2), (lstrip_all_space s).
  - by apply rstrip_append_spaces.
Qed.

Lemma lower_lstrip (s : string) :
  PyText.lower (PyText.lstrip s) = PyText.lstrip (PyText.lower s).
Proof.
  induction s as [|c s IH]; simpl; [reflexivity|].
  rewrite (proj1 (to_lower_isspace c)).
  destruct (PyText.isspace c); [exact IH | reflexivity].
Qed.

Lemma lower_rstrip (s : string) :
  PyText.lower (PyText.rstrip s) = PyText.rstrip (PyText.lower s).
Proof.
  induction s as [|c s IH]; simpl; [reflexivity|].
  rewrite <- IH, (proj1 (to_lower_isspace c)).
  destruct (PyText.rstrip s); simpl; [|reflexivity].
  destruct (PyText.isspace c); reflexivity.
Qed.

Lemma lower_strip (s : string) :
  PyText.lower (PyText.strip s) = PyText.strip (PyText.lower s).
Proof. unfold PyText.strip. by rewrite lower_rstrip, lower_lstrip. Qed.

(** The verdict does not change when whitespace is added at either end of
    the LLM's text or when the case of its letters changes. *)
Theorem parse_verdict_ignores_padding_and_case (ws1 s ws2 s' : string) :
  PyText.all_space ws1 = true ->
  PyText.all_space ws2 = true ->
  PyText.lower s = PyText.lower s' ->
  parse_verdict (ws1 +:+ s +:+ ws2) = parse_verdict s'.
Proof.
  intros H1 H2 Hcase. unfold parse_verdict.
  rewrite strip_padding by assumption.
  by rewrite !lower_strip, Hcase.
Qed.

(** *** The judge *)

Lemma seq_index_nat (items : list PyVal) (i : nat) :
  seq_index items (Z.of_nat i)
  = match items !! i with
    | Some v => Ok v
    | None => Raise IndexError
    end.
Proof.
  unfold seq_index.
  destruct (Z.ltb_spec (Z.of_nat i) 0); [lia|].
  destruct (Z.leb_spec 0 (Z.of_nat i)); [|lia].
  destruct (Z.ltb_spec (Z.of_nat i) (Z.of_nat (length items))); simpl.
  - by rewrite Nat2Z.id.
  - rewrite lookup_ge_None_2; [reflexivity | lia].
Qed.

(** [chunks[i]['id']] through the list lookup. *)
Lemma chunk_id_nat (chunks : list PyVal) (i : nat) :
  chunk_id chunks (Z.of_nat i)
  = match chunks !! i with
    | Some record => getitem record (KStr "id")
    | None => Raise IndexError
    end.
Proof.
  unfold chunk_id. cbn [getitem]. rewrite seq_index_nat.
  destruct (chunks !! i); reflexivity.
Qed.

Lemma chunk_ids_via_lookup (chunks : list PyVal) :
  chunk_id chunks 0 = match chunks !! 0 with
                      | Some record => getitem record (KStr "id")
                      | None => Raise IndexError
                      end
  /\ chunk_id chunks 1 = match chunks !! 1 with
                         | Some record => getitem record (KStr "id")
                         | None => Raise IndexError
                         end
  /\ chunk_id chunks 2 = match chunks !! 2 with
                         | Some record => getitem record (KStr "id")
                         | None => Raise IndexError
                         end.
Proof.
  split; [exact (chunk_id_nat chunks 0)|].
  split; [exact (chunk_id_nat chunks 1) | exact (chunk_id_nat chunks 2)].
Qed.

(** The judge reads the 'id' of the first three records and nothing else:
    records after the third, and fields other than 'id' (the chunk text
    among them), change neither the request sent to the LLM nor the
    result, which is read from the answer to that request. *)
Theorem judge_reads_only_three_ids (query : string)
    (e0 e1 e2 : list (string * PyVal)) (v0 v1 v2 : PyVal)
    (more : list PyVal) :
  dict_get "id" e0 = Some v0 ->
  dict_get "id" e1 = Some v1 ->
  dict_get "id" e2 = Some v2 ->
  check_compliance query (PDict e0 :: PDict e1 :: PDict e2 :: more)
  = ([CallJudge query; ChatCompletion (judge_messages query v0 v1 v2)],
     read_verdict (chat_completion (judge_messages query v0 v1 v2))).
Proof.
  intros H0 H1 H2. rewrite check_compliance_unfold.
  destruct (chunk_ids_via_lookup (PDict e0 :: PDict e1 :: PDict e2 :: more))
    as (-> & -> & ->).
  simpl. by rewrite H0, H1, H2.
Qed.

Lemma read_verdict_cases (completion : PyResult (option string)) :
  (exists content,
     completion = Ok (Some content)
     /\ read_verdict completion = Ok (parse_verdict content))
  \/ (exists e,
        read_verdict completion = Raise e
        /\ (completion = Raise e
            \/ (completion = Ok None /\ e = AttributeError))).
Proof.
  destruct completion as [[content|]|e]; simpl; eauto 6.
Qed.

(** The three ways a call of the judge can end. *)
Lemma check_compliance_cases (query : string) (chunks : list PyVal) :
  (exists e,
     check_compliance query chunks = ([CallJudge query], Raise e)
     /\ (e = IndexError \/ e = TypeError \/ e = KeyError))
  \/ (exists messages content,
        chat_completion messages = Ok (Some content)
        /\ check_compliance query chunks
           = ([CallJudge query; ChatCompletion messages],
              Ok (parse_verdict content)))
  \/ (exists messages e,
        check_compliance query chunks
        = ([CallJudge query; ChatCompletion messages], Raise e)
        /\ (chat_completion messages = Raise e
            \/ (chat_completion messages = Ok None /\ e = AttributeError))).
Proof.
  rewrite check_compliance_unfold.
  destruct (chunk_id chunks 0) as [c0|e0] eqn:E0;
    [|left; exists e0; eauto using chunk_id_errors].
  destruct (chunk_id chunks 1) as [c1|e1] eqn:E1;
    [|left; exists e1; eauto using chunk_id_errors].
  destruct (chunk_id chunks 2) as [c2|e2] eqn:E2;
    [|left; exists e2; eauto using chunk_id_errors].
  right.
  destruct (read_verdict_cases (chat_completion (judge_messages query c0 c1 c2)))
    as [(content & Hc & ->) | (e & -> & He)].
  - left. by exists (judge_messages query c0 c1 c2), content.
  - right. by exists (judge_messages query c0 c1 c2), e.
Qed.

(** A call of the judge sends at most one chat request and never retries.
    It ends in one of three ways: it raises IndexError, TypeError or
    KeyError without having sent any request; it returns the verdict
    parsed from the text the LLM answered to its one request; or it
    raises after its one request, with the exception of the client or the
    AttributeError of an answer whose content is None. *)
Theorem judge_requests_at_most_once (query : string) (chunks : list PyVal) :
  (exists e,
     check_compliance query chunks = ([CallJudge query], Raise e)
     /\ (e = IndexError \/ e = TypeError \/ e = KeyError))
  \/ (exists messages content,
        chat_completion messages = Ok (Some content)
        /\ check_compliance query chunks
           = ([CallJudge query; ChatCompletion messages],
              Ok (parse_verdict content)))
  \/ (exists messages e,
        check_compliance query chunks
        = ([CallJudge query; ChatCompletion messages], Raise e)
        /\ (chat_completion messages = Raise e
            \/ (chat_completion messages = Ok None /\ e = AttributeError))).
Proof.
  rewrite check_compliance_unfold.
  destruct (chunk_id chunks 0) as [c0|e0] eqn:E0.
  - destruct (chunk_id chunks 1) as [c1|e1] eqn:E1.
    + destruct (chunk_id chunks 2) as [c2|e2] eqn:E2.
      * right.
        destruct (chat_completion (judge_messages query c0 c1 c2))
          as [[content|]|e] eqn:Hc; cbn [read_verdict].
        -- left. by exists (judge_messages query c0 c1 c2), content.
        -- right. exists (judge_messages query c0 c1 c2), AttributeError.
           split; [reflexivity | by right].
        -- right. exists (judge_messages query c0 c1 c2), e.
           split; [reflexivity | by left].
      * left. exists e2. split; [reflexivity|].
        exact (chunk_id_errors chunks 2 e2 E2).
    + left. exists e1. split; [reflexivity|].
      exact (chunk_id_errors chunks 1 e1 E1).
  - left. exists e0. split; [reflexivity|].
    exact (chunk_id_errors chunks 0 e0 E0).
Qed.

(** *** The compliance loop and the report *)

Lemma dict_set_fresh {V : Type} (k : string) (v : V) (d : dict V) :
  k ∉ dict_keys d -> dict_set k v d = d ++ [(k, v)].
Proof.
  unfold dict_keys. induction d as [|[k0 v0] d IH]; csimpl; [reflexivity|].
  intros [Hne Hd]%not_elem_of_cons.
  destruct (String.eqb_spec k0 k) as [->|_]; [congruence|].
  by rewrite IH.
Qed.

Lemma dict_get_elem_of {V : Type} (k : string) (v : V) (d : dict V) :
  NoDup (dict_keys d) -> (k, v) ∈ d <-> dict_get k d = Some v.
Proof.
  unfold dict_keys. induction d as [|[k0 v0] d IH]; csimpl.
  - intros _. split; [intros H; by apply elem_of_nil in H | discriminate].
  - intros [Hk0 Hd]%NoDup_cons. rewrite elem_of_cons.
    destruct (String.eqb_spec k0 k) as [->|Hne].
    + split.
      * intros [[= ->] | Hin]; [reflexivity|].
        exfalso. apply Hk0. apply list_elem_of_fmap. by exists (k, v).
      * intros [= ->]. by left.
    + rewrite <- (IH Hd). split; [intros [[= ? ?] | ?]; [congruence | done] | auto].
Qed.

Lemma chats_app (evs1 evs2 : list Event) :
  chats (evs1 ++ evs2) = chats evs1 ++ chats evs2.
Proof. apply omap_app. Qed.

Lemma printed_app (evs1 evs2 : list Event) :
  printed (evs1 ++ evs2) = printed evs1 ++ printed evs2.
Proof. apply omap_app. Qed.

Lemma printed_stdout (lines : list string) : printed (Stdout <$> lines) = lines.
Proof. induction lines as [|l lines IH]; csimpl; [reflexivity | by rewrite IH]. Qed.

Lemma chats_stdout (lines : list string) : chats (Stdout <$> lines) = [].
Proof. induction lines as [|l lines IH]; csimpl; [reflexivity | exact IH]. Qed.

Lemma check_compliance_printed (query : string) (chunks : list PyVal) :
  printed (fst (check_compliance query chunks)) = [].
Proof.
  destruct (check_compliance_cases query chunks)
    as [(e & -> & _) | [(messages & content & _ & ->) | (messages & e & -> & _)]];
    reflexivity.
Qed.

Lemma compliance_loop_printed (items : list (string * list PyVal))
    (compliance_results : dict bool) :
  printed (trace (compliance_loop items compliance_results)) = [].
Proof.
  revert compliance_results.
  induction items as [|[query chunks] rest IH]; intros res; simpl; [reflexivity|].
  pose proof (check_compliance_printed query chunks) as Hp.
  destruct (check_compliance query chunks) as [evs [b|e]]; simpl in *.
  - by rewrite printed_app, Hp, IH.
  - exact Hp.
Qed.

Lemma compliance_loop_requests (items : list (string * list PyVal))
    (compliance_results : dict bool) :
  NoDup (dict_keys compliance_results ++ dict_keys items) ->
  let r := compliance_loop items compliance_results in
  exists unanswered,
    length compliance_results + length (chats (trace r))
    = length (final r) + unanswered
    /\ unanswered <= 1
    /\ (raised r = None ->
        unanswered = 0
        /\ length (final r) = length compliance_results + length items).
Proof.
  revert compliance_results.
  induction items as [|[query chunks] rest IH]; intros res Hnd; simpl.
  - exists 0. repeat split; lia.
  - assert (Hq : query ∉ dict_keys res).
    { apply NoDup_app in Hnd as (_ & Hnd & _). intros Hin.
      apply (Hnd _ Hin). unfold dict_keys. csimpl. apply elem_of_cons. auto. }
    destruct (check_compliance_cases query chunks)
      as [(e & -> & _)
         | [(messages & content & _ & ->) | (messages & e & -> & _)]];
      cbn [aborted after final trace raised].
    + exists 0. split; [simpl; lia|]. split; [lia | discriminate].
    + destruct (IH (dict_set query (parse_verdict content) res))
        as (u & Hlen & Hu & Hdone).
      { rewrite (dict_keys_set_new _ _ _ Hq), <- app_assoc. exact Hnd. }
      rewrite (dict_set_fresh _ _ _ Hq) in Hlen, Hdone |- *.
      rewrite length_app in Hlen, Hdone. simpl in Hlen, Hdone.
      exists u. rewrite chats_app. split; [simpl; lia|]. split; [exact Hu|].
      intros Hr. destruct (Hdone Hr) as [-> Hl]. split; [reflexivity | lia].
    + exists 1. split; [simpl; lia|]. split; [lia | discriminate].
Qed.

(** Every verdict in the dictionary was paid for with exactly one chat
    request, and at most one request, the last, has no verdict (the one
    whose answer made the judge raise): over a dictionary with distinct
    keys the compliance cell stores as many verdicts as it sent requests,
    or one fewer; when it completes the two numbers are equal, and equal
    to the number of entries of similar_chunks. *)
Theorem verdicts_match_chat_requests (similar_chunks : dict (list PyVal)) :
  NoDup (dict_keys similar_chunks) ->
  let r := compliance_cell similar_chunks in
  length (final r) <= length (chats (trace r))
  /\ length (chats (trace r)) <= S (length (final r))
  /\ (raised r = None ->
      length (final r) = length (chats (trace r))
      /\ length (final r) = length similar_chunks).
Proof.
  intros Hnd.
  destruct (compliance_loop_requests similar_chunks [] Hnd)
    as (u & Hlen & Hu & Hdone).
  simpl in Hlen, Hdone. unfold compliance_cell.
  destruct (raised (compliance_loop similar_chunks [])) eqn:Hr;
    cbn [final trace raised]; rewrite ?Hr.
  - split; [lia|]. split; [lia | discriminate].
  - rewrite chats_app, chats_stdout, app_nil_r.
    destruct (Hdone eq_refl) as [-> Hl]. repeat split; lia.
Qed.

Lemma compliance_loop_completes (items : list (string * list PyVal))
    (compliance_results : dict bool) :
  NoDup (dict_keys compliance_results ++ dict_keys items) ->
  Forall (fun item : string * list PyVal =>
            exists c0 c1 c2 content,
              chunk_id (snd item) 0 = Ok c0 /\ chunk_id (snd item) 1 = Ok c1
              /\ chunk_id (snd item) 2 = Ok c2
              /\ chat_completion (judge_messages (fst item) c0 c1 c2)
                 = Ok (Some content))
         items ->
  raised (compliance_loop items compliance_results) = None
  /\ exists entries,
       final (compliance_loop items compliance_results)
       = compliance_results ++ entries
       /\ Forall2
            (fun (item : string * list PyVal) (entry : string * bool) =>
               fst entry = fst item
               /\ exists c0 c1 c2 content,
                    chunk_id (snd item) 0 = Ok c0
                    /\ chunk_id (snd item) 1 = Ok c1
                    /\ chunk_id (snd item) 2 = Ok c2
                    /\ chat_completion (judge_messages (fst item) c0 c1 c2)
                       = Ok (Some content)
                    /\ snd entry = parse_verdict content)
            items entries.
Proof.
  revert compliance_results.
  induction items as [|[query chunks] rest IH]; intros res Hnd Hall; simpl.
  - split; [reflexivity|]. exists []. split; [by rewrite app_nil_r | constructor].
  - apply Forall_cons in Hall as [(c0 & c1 & c2 & content & H0 & H1 & H2 & Hc) Hall].
    simpl in H0, H1, H2, Hc.
    assert (Hq : query ∉ dict_keys res).
    { apply NoDup_app in Hnd as (_ & Hnd & _). intros Hin.
      apply (Hnd _ Hin). unfold dict_keys. csimpl. apply elem_of_cons. auto. }
    rewrite check_compliance_unfold, H0, H1, H2, Hc.
    cbn [read_verdict after raised final].
    destruct (IH (dict_set query (parse_verdict content) res))
      as (Hr & entries & Hf & Hall2).
    { rewrite (dict_keys_set_new _ _ _ Hq), <- app_assoc. exact Hnd. }
    { exact Hall. }
    split; [exact Hr|].
    exists ((query, parse_verdict content) :: entries).
    split.
    + rewrite Hf, (dict_set_fresh _ _ _ Hq), <- app_assoc. reflexivity.
    + constructor; [|exact Hall2]. split; [reflexivity|].
      by exists c0, c1, c2, content.
Qed.

(** When the three ids of every result can be read, the LLM answers
    every request with a text and the keys are distinct, the compliance
    cell completes without an exception and its dictionary has one
    verdict per entry of similar_chunks, in the same order: the parsed
    answer of the LLM to that entry's own prompt. *)
Theorem compliance_cell_judges_every_entry
    (similar_chunks : dict (list PyVal)) :
  NoDup (dict_keys similar_chunks) ->
  Forall (fun item : string * list PyVal =>
            exists c0 c1 c2 content,
              chunk_id (snd item) 0 = Ok c0 /\ chunk_id (snd item) 1 = Ok c1
              /\ chunk_id (snd item) 2 = Ok c2
              /\ chat_completion (judge_messages (fst item) c0 c1 c2)
                 = Ok (Some content))
         similar_chunks ->
  raised (compliance_cell similar_chunks) = None
  /\ Forall2
       (fun (item : string * list PyVal) (entry : string * bool) =>
          fst entry = fst item
          /\ exists c0 c1 c2 content,
               chunk_id (snd item) 0 = Ok c0
               /\ chunk_id (snd item) 1 = Ok c1
               /\ chunk_id (snd item) 2 = Ok c2
               /\ chat_completion (judge_messages (fst item) c0 c1 c2)
                  = Ok (Some content)
               /\ snd entry = parse_verdict content)
       similar_chunks (final (compliance_cell similar_chunks)).
Proof.
  intros Hnd Hall.
  destruct (compliance_loop_completes similar_chunks [] Hnd Hall)
    as (Hr & entries & Hf & Hall2).
  unfold compliance_cell. rewrite Hr. cbn [raised final].
  split; [reflexivity|]. rewrite Hf. exact Hall2.
Qed.

(** The compliance cell prints its report only when every judgment
    returned: after an exception nothing is printed, not even the
    heading; otherwise the printed lines are the report of the verdict
    dictionary and they are the last events of the run. *)
Theorem report_printed_only_on_completion
    (similar_chunks : dict (list PyVal)) :
  let r := compliance_cell similar_chunks in
  match raised r with
  | Some _ => printed (trace r) = []
  | None =>
      printed (trace r) = report (final r)
      /\ exists judgments,
           trace r = judgments ++ (Stdout <$> report (final r))
           /\ printed judgments = []
  end.
Proof.
  unfold compliance_cell.
  pose proof (compliance_loop_printed similar_chunks []) as Hp.
  destruct (raised (compliance_loop similar_chunks [])) eqn:Hr;
    cbn [raised trace final]; rewrite ?Hr; [exact Hp|].
  split.
  - by rewrite printed_app, Hp, printed_stdout.
  - by exists (trace (compliance_loop similar_chunks [])).
Qed.

(** The report starts with the heading and then lists exactly the
    queries whose verdict is False: for a verdict dictionary with distinct
    keys, the line of a query is in the report if and only if the
    dictionary maps the query to False. *)
Theorem report_lists_false_verdicts (compliance_results : dict bool)
    (query : string) :
  NoDup (dict_keys compliance_results) ->
  head (report compliance_results) = Some "Non-compliant queries:"
  /\ (String.append "- " query ∈ report compliance_results
      <-> dict_get query compliance_results = Some false).
Proof.
  intros Hnd. split; [reflexivity|].
  rewrite <- (dict_get_elem_of query false compliance_results Hnd).
  unfold report. rewrite elem_of_cons, list_elem_of_fmap. split.
  - intros [Habs | ([q b] & E & Hin)]; [discriminate Habs|].
    apply list_elem_of_filter in Hin as [Hb Hin]. simpl in Hb.
    change (String "-" (String " " query) = String "-" (String " " q)) in E.
    injection E as E. by subst q b.
  - intros Hin. right. exists (query, false). split; [reflexivity|].
    by apply list_elem_of_filter.
Qed.


(** *** Retrieval, further *)

Lemma executed_selects (query_list : list string) :
  executed ((fun query => Execute (SelectNearest query)) <$> query_list)
  = SelectNearest <$> query_list.
Proof.
  induction query_list as [|q rest IH]; csimpl; [reflexivity | by rewrite IH].
Qed.

Lemma retrieval_loop_appends (query_list : list string) (n : nat)
    (similar_chunks : dict (list PyVal)) :
  NoDup (dict_keys similar_chunks ++ answered n query_list) ->
  dict_keys (final (retrieval_loop n query_list similar_chunks))
  = dict_keys similar_chunks ++ answered n query_list.
Proof.
  revert n similar_chunks.
  induction query_list as [|q rest IH]; intros n sc; simpl;
    [by rewrite app_nil_r|].
  destruct (contains_nul q); [by rewrite app_nil_r|].
  destruct (select_error n q); [by rewrite app_nil_r|].
  cbn [after final]. intros Hnd.
  assert (Hq : q ∉ dict_keys sc).
  { apply NoDup_app in Hnd as (_ & Hnd & _). intros Hin.
    apply (Hnd _ Hin), elem_of_cons. auto. }
  rewrite IH.
  - rewrite (dict_keys_set_new _ _ _ Hq), <- app_assoc. reflexivity.
  - rewrite (dict_keys_set_new _ _ _ Hq), <- app_assoc. exact Hnd.
Qed.

(** The retrieval cell sends at most one SELECT per row of the dataset,
    in row order, and keeps at most one entry per row.  When it raises
    nothing it has sent exactly one SELECT per row, repeated texts
    included, and when the texts are moreover pairwise distinct, the keys
    of similar_chunks are the texts in row order and every text maps to
    the result fetched by its own SELECT. *)
Theorem retrieval_cell_one_select_per_row (query_list : list string) :
  executed (trace (retrieval_cell query_list))
    `prefix_of` (SelectNearest <$> query_list)
  /\ length (final (retrieval_cell query_list)) <= length query_list
  /\ (raised (retrieval_cell query_list) = None ->
      executed (trace (retrieval_cell query_list))
        = SelectNearest <$> query_list
      /\ (NoDup query_list ->
          dict_keys (final (retrieval_cell query_list)) = query_list
          /\ forall i query,
               query_list !! i = Some query ->
               dict_get query (final (retrieval_cell query_list))
               = Some (fetchall (table_at i) query))).
Proof.
  destruct (retrieval_loop_trace query_list 0 []) as (sent & Ht & Ha & Hs).
  assert (Hex : executed (trace (retrieval_cell query_list))
                = SelectNearest <$> sent)
    by (unfold retrieval_cell; rewrite Ht; apply executed_selects).
  split; [|split].
  - rewrite Hex. destruct Hs as [more ->]. rewrite fmap_app.
    by apply prefix_app_r.
  - destruct (retrieval_cell_keys query_list) as [Hnd Hiff].
    rewrite <- (length_fmap fst).
    apply submseteq_length, NoDup_submseteq; [exact Hnd|].
    intros q Hq. apply Hiff in Hq.
    destruct (answered_prefix query_list 0) as [more Hmore].
    rewrite Hmore. apply elem_of_app. by left.
  - intros Hr.
    assert (Hall : answered 0 query_list = query_list)
      by (apply (proj1 (retrieval_loop_raised _ 0 [])); exact Hr).
    assert (Hsent : sent = query_list)
      by (rewrite Hall in Ha; by apply (anti_symm prefix)).
    split; [by rewrite Hex, Hsent|].
    intros Hnd. split.
    + pose proof (retrieval_loop_appends query_list 0 []) as Hk.
      rewrite Hall in Hk. exact (Hk Hnd).
    + intros i query Hi.
      pose proof (retrieval_loop_last query_list 0 [] query i) as Hl.
      rewrite Hall in Hl. apply (Hl Hi).
      intros j Hj Hj'. apply (NoDup_lookup _ _ _ _ Hnd Hi) in Hj'. lia.
Qed.

(** Every record of a result is the (id, vector) pair of a row of the
    table: its field 0 is the row's id (None for NULL), its field 1 the
    row's vector, there is no field 2, and it cannot be subscripted with
    the key 'id'. *)
Theorem fetched_records_are_table_rows (table : list Row) (query : string)
    (record : PyVal) :
  record ∈ fetchall table query ->
  exists r,
    r ∈ table
    /\ getitem record (KInt 0) = Ok (from_option PInt PNone (id r))
    /\ getitem record (KInt 1)
       = Ok (from_option (fun v => PList (PFloat <$> v)) PNone (vector r))
    /\ getitem record (KInt 2) = Raise IndexError
    /\ getitem record (KStr "id") = Raise TypeError.
Proof.
  unfold fetchall, select_nearest.
  intros (r & -> & Hr)%list_elem_of_fmap.
  exists r. split; [|repeat split].
  apply elem_of_take in Hr as (i & Hr & _).
  apply list_elem_of_lookup_2 in Hr.
  by rewrite merge_sort_Permutation in Hr.
Qed.


Section OrderingFurther.

Hypothesis real_leb_total :
  forall x y : Z, real_leb x y = true \/ real_leb y x = true.

Hypothesis real_leb_trans :
  forall x y z : Z,
    real_leb x y = true -> real_leb y z = true -> real_leb x z = true.

(** The first row of a result is a row of the table at minimal distance
    from the query: no row of the table comes strictly before it in the
    ORDER BY order. *)
Theorem first_result_is_nearest (table : list Row) (query : string)
    (r0 : Row) (rows : list Row) :
  select_nearest table query = r0 :: rows ->
  r0 ∈ table /\ forall r, r ∈ table -> nearer query r0 r.
Proof using real_leb_total real_leb_trans.
  intros Hsel.
  destruct (select_nearest_spec real_leb_total real_leb_trans table query)
    as (rest & Hperm & Hsorted).
  rewrite Hsel in Hperm, Hsorted. simpl in Hperm, Hsorted.
  apply StronglySorted_inv in Hsorted as [_ Hall].
  assert (Hrefl : nearer query r0 r0)
    by (destruct (nearer_total real_leb_total query r0 r0); assumption).
  split.
  - rewrite <- Hperm. apply list_elem_of_here.
  - intros r Hr. rewrite <- Hperm in Hr.
    apply elem_of_cons in Hr as [-> | Hr]; [exact Hrefl|].
    by apply (proj1 (Forall_forall _ _) Hall).
Qed.

Lemma sorted_after_null (query : string) (r : Row) (l : list Row) :
  embedded r = false ->
  Forall (nearer query r) l ->
  filter (fun r' => embedded r' = true) l = [].
Proof using Type.
  intros Hr Hall. induction Hall as [|r' l Hr' _ IH]; [reflexivity|].
  rewrite filter_cons_False; [exact IH|].
  unfold nearer, order_key, key_leb, embedded in *.
  destruct (vector r); [discriminate|].
  destruct (vector r'); [intros _; exact Hr' | discriminate].
Qed.

Lemma sorted_embedded_first (query : string) (l : list Row) (n : nat) :
  StronglySorted (nearer query) l ->
  n <= length (filter (fun r => embedded r = true) l) ->
  Forall (fun r => embedded r = true) (take n l).
Proof using Type.
  intros Hsorted. revert n.
  induction Hsorted as [|r l Hl IH Hall]; intros n Hn.
  - rewrite take_nil. constructor.
  - destruct n as [|n]; [constructor|]. simpl.
    destruct (embedded r) eqn:Hr.
    + rewrite filter_cons_True in Hn by exact Hr. simpl in Hn.
      constructor; [exact Hr | apply IH; lia].
    + rewrite filter_cons_False in Hn by (rewrite Hr; discriminate).
      rewrite (sorted_after_null query r l Hr Hall) in Hn. simpl in Hn. lia.
Qed.


End OrderingFurther.

(** When no row of the table has a vector, the SELECT still returns
    rows: the result has min(3, table size) records and the vector field
    of each of them is None. *)
Theorem unembedded_rows_are_returned (table : list Row) (query : string) :
  Forall (fun r => embedded r = false) table ->
  length (fetchall table query) = min 3 (length table)
  /\ Forall (fun record => getitem record (KInt 1) = Ok PNone)
       (fetchall table query).
Proof.
  intros Hall. split; [apply fetchall_length|].
  apply Forall_forall. intros record Hin.
  unfold fetchall, select_nearest in Hin.
  apply list_elem_of_fmap in Hin as (r & -> & Hr).
  apply elem_of_take in Hr as (i & Hr & _).
  apply list_elem_of_lookup_2 in Hr.
  rewrite merge_sort_Permutation in Hr.
  apply (proj1 (Forall_forall _ _) Hall) in Hr.
  unfold embedded in Hr. unfold fetch_tuple.
  destruct (vector r); [discriminate | reflexivity].
Qed.


(** *** The application as a whole *)

Lemma retrieval_loop_head (query_list : list string) (n : nat)
    (k0 : string) (v0 : list PyVal) (d : dict (list PyVal)) :
  exists v tail,
    final (retrieval_loop n query_list ((k0, v0) :: d)) = (k0, v) :: tail.
Proof.
  revert n v0 d.
  induction query_list as [|q rest IH]; intros n v0 d; simpl; [eauto|].
  destruct (contains_nul q); [cbn; eauto|].
  destruct (select_error n q); [cbn; eauto|].
  cbn [after final dict_set].
  destruct (String.eqb_spec k0 q) as [->|_]; apply IH.
Qed.

Lemma check_compliance_on_fetched (table : list Row) (query q' : string) :
  check_compliance query (fetchall table q')
  = ([CallJudge query],
     Raise (if decide (fetchall table q' = []) then IndexError else TypeError)).
Proof.
  rewrite check_compliance_unfold. case_decide as Hnil.
  - rewrite Hnil. reflexivity.
  - destruct (fetchall_head_is_tuple _ _ Hnil) as (fields & more & ->).
    by rewrite chunk_id_of_tuple.
Qed.


(** *** The HTTP cells, whatever the services answer *)

Lemma no_value_has_markdown_url_or_chunks (v : PyVal) :
  getattr v "markdown_url" = Raise AttributeError
  /\ getattr v "chunks" = Raise AttributeError.
Proof. destruct v; split; reflexivity. Qed.

Lemma ingest_cell_posted (ns : namespace) :
  posted (trace (ingest_cell ns))
  = [("https://api.ecliptor.com/ingest/pdf", PDict [("url", PStr "https://www.congress.gov/116/plaws/publ283/PLAW-116publ283.pdf")])].
Proof.
  unfold ingest_cell. set (response := post _ _).
  destruct (getattr response "status_code") as [sc|]; [|reflexivity].
  destruct (is_200 sc); [|reflexivity].
  destruct (json response) as [result|]; [|reflexivity].
  by rewrite (proj1 (no_value_has_markdown_url_or_chunks result)).
Qed.

(** The ingestion cell assigns pdf_url, api_url, payload, response and
    result, and no other variable. *)
Lemma ingest_cell_untouched (ns : namespace) (name : string) :
  name ∉ ["pdf_url"; "api_url"; "payload"; "response"; "result"] ->
  final (ingest_cell ns) !! name = ns !! name.
Proof.
  intros Hname.
  assert (H1 : "pdf_url" <> name /\ "api_url" <> name /\ "payload" <> name
               /\ "response" <> name /\ "result" <> name).
  { repeat split; intros <-; apply Hname; repeat constructor. }
  destruct H1 as (H1 & H2 & H3 & H4 & H5).
  unfold ingest_cell. set (response := post _ _).
  destruct (getattr response "status_code") as [sc|];
    [|cbn [aborted final]; by rewrite !lookup_insert_ne].
  destruct (is_200 sc); [|cbn [final]; by rewrite !lookup_insert_ne].
  destruct (json response) as [result|];
    [|cbn [aborted final]; by rewrite !lookup_insert_ne].
  rewrite (proj1 (no_value_has_markdown_url_or_chunks result)).
  cbn [aborted final]. by rewrite !lookup_insert_ne.
Qed.

Lemma chunk_cell_unbound (ns : namespace) :
  ns !! "markdown_url" = None ->
  chunk_cell ns
  = aborted (<["api_url" := PStr "https://api.ecliptor.com/chunk"]> ns) []
      NameError.
Proof.
  intros Hnone. unfold chunk_cell.
  rewrite lookup_insert_ne by done. by rewrite Hnone.
Qed.

(** Whatever the ingestion service returns, the ingestion cell sends
    exactly one POST (to the ingest endpoint, with the fixed PDF URL as
    payload) and never assigns markdown_url; when the answer is a
    response object, the cell ends without an exception exactly when the
    status is not 200. *)
Theorem ingest_cell_never_assigns_markdown_url (ns : namespace) :
  posted (trace (ingest_cell ns))
  = [("https://api.ecliptor.com/ingest/pdf",
      PDict [("url",
              PStr "https://www.congress.gov/116/plaws/publ283/PLAW-116publ283.pdf")])]
  /\ final (ingest_cell ns) !! "markdown_url" = ns !! "markdown_url"
  /\ forall status body,
       post "https://api.ecliptor.com/ingest/pdf"
         (PDict [("url",
                  PStr "https://www.congress.gov/116/plaws/publ283/PLAW-116publ283.pdf")])
       = PResponse status body ->
       (raised (ingest_cell ns) = None <-> status <> 200%Z).
Proof.
  split; [apply ingest_cell_posted|].
  split; [apply ingest_cell_untouched; not_listed|].
  intros status body Hresp. unfold ingest_cell.
  rewrite Hresp, getattr_status_code.
  cbn [is_200]. destruct (Z.eqb_spec status 200) as [->|Hne].
  - destruct body as [result|]; cbn [json].
    + rewrite (proj1 (no_value_has_markdown_url_or_chunks result)).
      cbn [aborted raised]. split; [discriminate | congruence].
    + cbn [aborted raised]. split; [discriminate | congruence].
  - cbn [raised]. split; auto.
Qed.

(** The chunking cell sends no request at all when markdown_url is
    unassigned (it stops with a NameError); otherwise it sends exactly
    one POST to the chunk endpoint with the value of markdown_url as
    payload.  Whatever the service answers, chunks is the empty list
    afterwards. *)
Theorem chunk_cell_never_fills_chunks (ns : namespace) :
  match ns !! "markdown_url" with
  | None =>
      raised (chunk_cell ns) = Some NameError
      /\ posted (trace (chunk_cell ns)) = []
      /\ final (chunk_cell ns) !! "chunks" = ns !! "chunks"
  | Some markdown_url =>
      posted (trace (chunk_cell ns))
      = [("https://api.ecliptor.com/chunk", PDict [("url", markdown_url)])]
      /\ final (chunk_cell ns) !! "chunks" = Some (PList [])
  end.
Proof.
  destruct (ns !! "markdown_url") as [markdown_url|] eqn:Hurl.
  - unfold chunk_cell. rewrite lookup_insert_ne, Hurl by done.
    set (response := post _ _).
    destruct (getattr response "status_code") as [sc|];
      [|cbn [aborted final trace]; split; [reflexivity | by rewrite lookup_insert_eq]].
    destruct (is_200 sc);
      [|cbn [final trace]; split; [reflexivity | by rewrite lookup_insert_eq]].
    destruct (json response) as [result|];
      [|cbn [aborted final trace]; split; [reflexivity | by rewrite lookup_insert_eq]].
    rewrite (proj2 (no_value_has_markdown_url_or_chunks response)).
    cbn [aborted final trace]. split; [reflexivity|].
    rewrite lookup_insert_ne by done. by rewrite lookup_insert_eq.
  - rewrite (chunk_cell_unbound ns Hurl). cbn [aborted raised trace final].
    repeat split. by rewrite lookup_insert_ne.
Qed.

(** In a kernel where markdown_url is unassigned, running the ingestion
    cell and then the chunking cell always ends in the NameError of the
    chunking cell, whatever the services answer: one request goes to the
    ingest endpoint, none to the chunk endpoint, and chunks is not
    assigned by the chunking cell. *)
Theorem chunking_after_ingestion_raises_name_error (ns : namespace) :
  ns !! "markdown_url" = None ->
  let r := chunk_cell (final (ingest_cell ns)) in
  raised r = Some NameError
  /\ posted (trace (ingest_cell ns) ++ trace r)
     = [("https://api.ecliptor.com/ingest/pdf",
         PDict [("url",
                 PStr "https://www.congress.gov/116/plaws/publ283/PLAW-116publ283.pdf")])]
  /\ final r !! "chunks" = ns !! "chunks".
Proof.
  intros Hnone.
  assert (Hm : final (ingest_cell ns) !! "markdown_url" = None)
    by (rewrite ingest_cell_untouched; [exact Hnone | not_listed]).
  cbn zeta. rewrite (chunk_cell_unbound _ Hm).
  cbn [aborted raised trace final].
  split; [reflexivity|]. split.
  - rewrite app_nil_r. apply ingest_cell_posted.
  - rewrite lookup_insert_ne by done.
    apply ingest_cell_untouched. not_listed.
Qed.

(** *** Running the setup where the table exists *)

(** On a database where the table already exists (a second run of the
    notebook), the setup stops at CREATE TABLE with
    DuplicateTable: nothing is committed, the database is left as it was,
    the transaction stays aborted, and every later statement on the
    connection, the embedding job cell included, is refused. *)
Theorem setup_cells_not_rerunnable (db : Database) (rows : list Row) :
  compliance_documents db = Some rows ->
  let r := setup_cells db in
  raised r = Some DuplicateTable
  /\ trace r = [Execute CreateTable]
  /\ committed (final r) = db
  /\ visible (final r) = db
  /\ status (final r) = Failed
  /\ (forall stmt,
        snd (execute stmt (final r)) = Some InFailedSqlTransaction)
  /\ raised (embedding_job_cell (final r)) = Some InFailedSqlTransaction.
Proof.
  intros Hsome. cbn zeta.
  assert (Hrun : setup_cells db
                 = aborted (mkSession db db Failed) [Execute CreateTable]
                     DuplicateTable).
  { unfold setup_cells, create_table_cell, connect.
    cbn [execute_all]. unfold execute. cbn [status visible].
    rewrite Hsome. reflexivity. }
  rewrite Hrun. cbn [aborted raised trace final committed visible status].
  do 5 (split; [reflexivity|]).
  split; [intros stmt; reflexivity|].
  by rewrite (proj1 (embedding_job_cell_raises (mkSession db db Failed))).
Qed.

End Notebook.

(** ** Worked scenarios *)

(** Three dict records and an LLM that answers "TRUE " with a trailing
    space: one chat request, verdict true. *)
Lemma check_compliance_verdict_witness :
  chunk_id sample_records 0 = Ok (PInt 1)
  /\ chunk_id sample_records 1 = Ok (PInt 2)
  /\ chunk_id sample_records 2 = Ok (PInt 3)
  /\ answers_true_padded
       (judge_messages "Is a co-signer required?" (PInt 1) (PInt 2) (PInt 3))
     = Ok (Some "TRUE ")
  /\ check_compliance answers_true_padded "Is a co-signer required?"
       sample_records
     = ([CallJudge "Is a co-signer required?";
         ChatCompletion
           (judge_messages "Is a co-signer required?"
              (PInt 1) (PInt 2) (PInt 3))],
        Ok true).
Proof.
  split; [reflexivity|]. split; [reflexivity|]. split; [reflexivity|].
  split; [reflexivity|].
  exact (proj1 (check_compliance_verdict answers_true_padded
                  "Is a co-signer required?" sample_records
                  (PInt 1) (PInt 2) (PInt 3) "TRUE "
                  eq_refl eq_refl eq_refl eq_refl)).
Defined.

(** C1 as stated fails: the answer "Maybe" is no ParseError, the judge
    returns the verdict false. *)
Lemma maybe_is_coerced_to_false :
  parse_verdict "True" = true
  /\ parse_verdict "TRUE " = true
  /\ parse_verdict "Maybe" = false
  /\ snd (check_compliance answers_maybe "Is a co-signer required?"
            sample_records)
     = Ok false.
Proof. repeat split. Qed.

Lemma Z_leb_total (x y : Z) : (x <=? y)%Z = true \/ (y <=? x)%Z = true.
Proof. lia. Qed.

Lemma Z_leb_trans (x y z : Z) :
  (x <=? y)%Z = true -> (y <=? z)%Z = true -> (x <=? z)%Z = true.
Proof. lia. Qed.

(** A five-row table, one row with a NULL vector: the query of length
    one is nearest to rows 2, 4 and 5. *)
Lemma retrieval_result_shape_witness :
  ("a", [PTuple [PInt 2; PList [PFloat 10]];
         PTuple [PInt 4; PList [PFloat 20]];
         PTuple [PInt 5; PList [PFloat 30]]])
    ∈ final (retrieval_cell sample_table always_answers sample_embedding
               sample_distance Z.leb ["a"; "bb"])
  /\ exists (i : nat) (rows rest : list Row),
       ["a"; "bb"] !! i = Some "a"
       /\ [PTuple [PInt 2; PList [PFloat 10]];
           PTuple [PInt 4; PList [PFloat 20]];
           PTuple [PInt 5; PList [PFloat 30]]] = fetch_tuple <$> rows
       /\ 3 = min 3 (length (sample_table i))
       /\ rows ++ rest ≡ₚ sample_table i
       /\ StronglySorted (nearer sample_embedding sample_distance Z.leb "a")
            (rows ++ rest).
Proof.
  assert (Hin :
    ("a", [PTuple [PInt 2; PList [PFloat 10]];
           PTuple [PInt 4; PList [PFloat 20]];
           PTuple [PInt 5; PList [PFloat 30]]])
      ∈ final (retrieval_cell sample_table always_answers sample_embedding
                 sample_distance Z.leb ["a"; "bb"])).
  { vm_compute. apply list_elem_of_here. }
  split; [exact Hin|].
  exact (retrieval_result_shape sample_table always_answers sample_embedding
           sample_distance Z.leb Z_leb_total Z_leb_trans ["a"; "bb"] "a" _ Hin).
Defined.

(** C2 as stated fails: over a one-row table the stored result has one
    record, not three, and the record carries the stored vector (40), not
    the distance to the query (1521). *)
Lemma retrieval_returns_fewer_than_k_vectors :
  final (retrieval_cell one_row_table always_answers sample_embedding
           sample_distance Z.leb ["a"])
  = [("a", [PTuple [PInt 1; PList [PFloat 40]]])]
  /\ order_key sample_embedding sample_distance "a"
       (mkRow (Some 1%Z) (Some "Section 1") (Some [40%Z]))
     = Some 1521%Z.
Proof. split; reflexivity. Qed.

(** The empty result: IndexError, and no chat request. *)
Lemma short_chunks_raise_before_llm_witness :
  length (@nil PyVal) < 3
  /\ exists e,
       check_compliance answers_maybe "Is a co-signer required?" []
       = ([CallJudge "Is a co-signer required?"], Raise e)
       /\ (e = IndexError \/ e = TypeError \/ e = KeyError)
       /\ (@nil PyVal = [] -> e = IndexError).
Proof.
  assert (H : length (@nil PyVal) < 3) by (simpl; lia).
  split; [exact H|].
  exact (short_chunks_raise_before_llm answers_maybe
           "Is a co-signer required?" [] H).
Defined.

(** C3 as stated fails: no DataError is raised.  The empty result ends in
    an IndexError, and a single record of the retrieval pipeline ends in a
    TypeError about the record, not about the missing ones. *)
Lemma short_chunks_raise_no_data_error :
  snd (check_compliance answers_maybe "Is a co-signer required?" [])
    = Raise IndexError
  /\ snd (check_compliance answers_maybe "Is a co-signer required?" [])
    <> Raise (Taxonomy DataError)
  /\ snd (check_compliance answers_maybe "Is a co-signer required?"
            (fetchall sample_embedding sample_distance Z.leb (one_row_table 0)
               "Is a co-signer required?"))
    = Raise TypeError.
Proof. repeat split. discriminate. Qed.

(** Both services answer 404 in a fresh kernel. *)
Lemma non_200_response_is_silent_witness :
  (404 <> 200)%Z
  /\ (forall url payload,
        exists body, failing_post url payload = PResponse 404 body)
  /\ raised (ingest_cell failing_post ∅) = None
  /\ final (ingest_cell failing_post ∅) !! "markdown_url" = None.
Proof.
  assert (Hs : (404 <> 200)%Z) by lia.
  assert (Hp : forall url payload,
             exists body, failing_post url payload = PResponse 404 body)
    by (intros url payload; exists None; reflexivity).
  split; [exact Hs|]. split; [exact Hp|].
  destruct (non_200_response_is_silent failing_post ∅ 404 Hs Hp) as (H1 & H2 & _).
  split; [exact H1 | exact H2].
Defined.

(** C4 as stated fails: on a 404 answer neither cell raises; the ingestion
    cell ends with markdown_url unassigned, the chunking cell with chunks
    the empty list. *)
Lemma http_404_raises_nothing :
  raised (ingest_cell failing_post ∅) = None
  /\ final (ingest_cell failing_post ∅) !! "markdown_url" = None
  /\ raised (chunk_cell failing_post
               (<["markdown_url" := PStr "https://files.example/act.md"]> ∅))
     = None
  /\ final (chunk_cell failing_post
              (<["markdown_url" := PStr "https://files.example/act.md"]> ∅))
       !! "chunks"
     = Some (PList []).
Proof. vm_compute. repeat split. Qed.

(** The setup cells on a database without the table, and a retrieval
    cell on the connection they leave. *)
Lemma setup_leaves_table_empty_witness :
  compliance_documents (mkDatabase None false None []) = None
  /\ raised (setup_cells (mkDatabase None false None []))
     = Some ActiveSqlTransaction
  /\ trace (setup_cells (mkDatabase None false None []))
     = [Execute CreateTable; Commit; Execute EnableDaemon]
  /\ compliance_documents
       (committed (final (setup_cells (mkDatabase None false None []))))
     = Some []
  /\ (forall n query,
        aborted_session n query
        = snd (execute (SelectNearest query)
                 (final (setup_cells (mkDatabase None false None [])))))
  /\ raised (retrieval_cell empty_table aborted_session sample_embedding
               sample_distance Z.leb ["a"; "bb"])
     = Some InFailedSqlTransaction.
Proof.
  destruct (setup_leaves_table_empty empty_table aborted_session
              sample_embedding sample_distance Z.leb
              (mkDatabase None false None []) eq_refl)
    as (Hr & Ht & Hc & _ & _ & _ & _ & _ & Hsel).
  assert (Hagree : forall n query,
             aborted_session n query
             = snd (execute (SelectNearest query)
                      (final (setup_cells (mkDatabase None false None [])))))
    by (intros n query; reflexivity).
  split; [reflexivity|]. split; [exact Hr|]. split; [exact Ht|].
  split; [exact Hc|]. split; [exact Hagree|].
  exact (proj1 (Hsel Hagree "a" ["bb"])).
Defined.



(** The judge on what the pipeline stored for the five-row table. *)
Lemma pipeline_records_raise_type_error_witness :
  check_compliance answers_true_padded "a"
    [PTuple [PInt 2; PList [PFloat 10]];
     PTuple [PInt 4; PList [PFloat 20]];
     PTuple [PInt 5; PList [PFloat 30]]]
  = ([CallJudge "a"], Raise TypeError).
Proof.
  assert (Hin :
    ("a", [PTuple [PInt 2; PList [PFloat 10]];
           PTuple [PInt 4; PList [PFloat 20]];
           PTuple [PInt 5; PList [PFloat 30]]])
      ∈ final (retrieval_cell sample_table always_answers sample_embedding
                 sample_distance Z.leb ["a"; "bb"])).
  { vm_compute. apply list_elem_of_here. }
  refine (proj2 (pipeline_records_raise_type_error sample_table always_answers
                   sample_embedding sample_distance Z.leb answers_true_padded
                   ["a"; "bb"] "a" _ Hin _)).
  discriminate.
Defined.

(** Both services answer 200 with the JSON of their contracts, in a
    fresh kernel. *)
Lemma attribute_access_misses_json_fields_witness :
  raised (ingest_cell sample_post ∅) = Some AttributeError
  /\ final (ingest_cell sample_post ∅) !! "markdown_url" = None
  /\ raised (chunk_cell sample_post (final (ingest_cell sample_post ∅)))
     = Some NameError.
Proof.
  destruct (attribute_access_misses_json_fields sample_post ∅ 200
              "https://files.example/act.md" ["Section 1"; "Section 2"]
              (fun _ => eq_refl) (fun _ => eq_refl))
    as (H1 & H2 & _ & H4).
  split; [exact H1|]. split; [exact H2|]. exact (H4 eq_refl).
Defined.





(** ** Worked scenarios for the further properties *)

(** The answer " TrUe" followed by a line feed is judged like "true". *)
Lemma parse_verdict_ignores_padding_and_case_witness :
  PyText.all_space " " = true
  /\ PyText.all_space LF = true
  /\ PyText.lower "TrUe" = PyText.lower "true"
  /\ parse_verdict (" " +:+ "TrUe" +:+ LF) = parse_verdict "true".
Proof.
  split; [reflexivity|]. split; [reflexivity|]. split; [reflexivity|].
  exact (parse_verdict_ignores_padding_and_case " " "TrUe" LF "true"
           eq_refl eq_refl eq_refl).
Defined.

(** Records with a chunk text and a fourth record: the request is the one
    for the ids 1, 2 and 3. *)
Lemma judge_reads_only_three_ids_witness :
  check_compliance answers_maybe "Can I skip the credit check?" rich_records
  = ([CallJudge "Can I skip the credit check?";
      ChatCompletion
        (judge_messages "Can I skip the credit check?"
           (PInt 1) (PInt 2) (PInt 3))],
     Ok false).
Proof.
  exact (judge_reads_only_three_ids answers_maybe
           "Can I skip the credit check?"
           [("chunk", PStr "Section 1"); ("id", PInt 1)]
           [("id", PInt 2); ("chunk", PStr "Section 2")]
           [("id", PInt 3)] (PInt 1) (PInt 2) (PInt 3)
           [PTuple [PInt 4; PNone]] eq_refl eq_refl eq_refl).
Defined.

Lemma sample_similar_chunks_NoDup : NoDup (dict_keys sample_similar_chunks).
Proof. compute_done. Qed.

Lemma sample_verdicts_NoDup : NoDup (dict_keys sample_verdicts).
Proof. compute_done. Qed.

Lemma sample_similar_chunks_readable :
  Forall (fun item : string * list PyVal =>
            exists c0 c1 c2 content,
              chunk_id (snd item) 0 = Ok c0 /\ chunk_id (snd item) 1 = Ok c1
              /\ chunk_id (snd item) 2 = Ok c2
              /\ answers_true_padded (judge_messages (fst item) c0 c1 c2)
                 = Ok (Some content))
         sample_similar_chunks.
Proof.
  repeat constructor; exists (PInt 1), (PInt 2), (PInt 3), "TRUE ";
    repeat split.
Qed.

(** Two entries and an LLM whose answers have no content: one request,
    no verdict. *)
Lemma verdicts_match_chat_requests_witness :
  NoDup (dict_keys sample_similar_chunks)
  /\ length (final (compliance_cell answers_nothing sample_similar_chunks)) = 0
  /\ length (chats (trace (compliance_cell answers_nothing
                             sample_similar_chunks))) = 1
  /\ length (final (compliance_cell answers_nothing sample_similar_chunks))
     <= length (chats (trace (compliance_cell answers_nothing
                                sample_similar_chunks))).
Proof.
  split; [exact sample_similar_chunks_NoDup|].
  split; [reflexivity|]. split; [reflexivity|].
  exact (proj1 (verdicts_match_chat_requests answers_nothing
                  sample_similar_chunks sample_similar_chunks_NoDup)).
Defined.

(** Two entries with dict records: the cell completes. *)
Lemma compliance_cell_judges_every_entry_witness :
  NoDup (dict_keys sample_similar_chunks)
  /\ raised (compliance_cell answers_true_padded sample_similar_chunks) = None.
Proof.
  split; [exact sample_similar_chunks_NoDup|].
  exact (proj1 (compliance_cell_judges_every_entry answers_true_padded
                  sample_similar_chunks
                  sample_similar_chunks_NoDup sample_similar_chunks_readable)).
Defined.

(** One compliant and one non-compliant query: only the second is
    listed. *)
Lemma report_lists_false_verdicts_witness :
  NoDup (dict_keys sample_verdicts)
  /\ String.append "- " "Can I skip the credit check?" ∈ report sample_verdicts
  /\ ~ String.append "- " "Is a co-signer required?" ∈ report sample_verdicts.
Proof.
  split; [exact sample_verdicts_NoDup|]. split.
  - apply (proj2 (report_lists_false_verdicts sample_verdicts
                    "Can I skip the credit check?" sample_verdicts_NoDup)).
    reflexivity.
  - intros Hin.
    apply (proj2 (report_lists_false_verdicts sample_verdicts
                    "Is a co-signer required?" sample_verdicts_NoDup)) in Hin.
    discriminate Hin.
Defined.

(** Two distinct texts over the five-row table, all answered. *)
Lemma retrieval_cell_one_select_per_row_witness :
  raised (retrieval_cell sample_table always_answers sample_embedding
            sample_distance Z.leb ["a"; "bb"]) = None
  /\ NoDup ["a"; "bb"]
  /\ dict_keys (final (retrieval_cell sample_table always_answers
                         sample_embedding sample_distance Z.leb ["a"; "bb"]))
     = ["a"; "bb"].
Proof.
  assert (Hr : raised (retrieval_cell sample_table always_answers
                         sample_embedding sample_distance Z.leb ["a"; "bb"])
               = None) by reflexivity.
  assert (Hnd : NoDup ["a"; "bb"]) by compute_done.
  split; [exact Hr|]. split; [exact Hnd|].
  destruct (retrieval_cell_one_select_per_row sample_table always_answers
              sample_embedding sample_distance Z.leb ["a"; "bb"])
    as (_ & _ & H).
  exact (proj1 (proj2 (H Hr) Hnd)).
Defined.

(** The first record fetched from the five-row table is row 2. *)
Lemma fetched_records_are_table_rows_witness :
  PTuple [PInt 2; PList [PFloat 10]]
    ∈ fetchall sample_embedding sample_distance Z.leb sample_rows "a"
  /\ exists r,
       r ∈ sample_rows
       /\ getitem (PTuple [PInt 2; PList [PFloat 10]]) (KInt 0)
          = Ok (from_option PInt PNone (id r))
       /\ getitem (PTuple [PInt 2; PList [PFloat 10]]) (KInt 1)
          = Ok (from_option (fun v => PList (PFloat <$> v)) PNone (vector r))
       /\ getitem (PTuple [PInt 2; PList [PFloat 10]]) (KInt 2)
          = Raise IndexError
       /\ getitem (PTuple [PInt 2; PList [PFloat 10]]) (KStr "id")
          = Raise TypeError.
Proof.
  assert (Hin : PTuple [PInt 2; PList [PFloat 10]]
                  ∈ fetchall sample_embedding sample_distance Z.leb
                      sample_rows "a")
    by (vm_compute; apply list_elem_of_here).
  split; [exact Hin|].
  exact (fetched_records_are_table_rows sample_embedding sample_distance Z.leb
           sample_rows "a" _ Hin).
Defined.

(** Over the five-row table, row 2 is nearest to the query of length
    one. *)
Lemma first_result_is_nearest_witness :
  select_nearest sample_embedding sample_distance Z.leb sample_rows "a"
  = mkRow (Some 2%Z) (Some "Section 2") (Some [10%Z])
    :: [mkRow (Some 4%Z) (Some "Section 4") (Some [20%Z]);
        mkRow (Some 5%Z) (Some "Section 5") (Some [30%Z])]
  /\ forall r,
       r ∈ sample_rows ->
       nearer sample_embedding sample_distance Z.leb "a"
         (mkRow (Some 2%Z) (Some "Section 2") (Some [10%Z])) r.
Proof.
  assert (Hsel :
    select_nearest sample_embedding sample_distance Z.leb sample_rows "a"
    = mkRow (Some 2%Z) (Some "Section 2") (Some [10%Z])
      :: [mkRow (Some 4%Z) (Some "Section 4") (Some [20%Z]);
          mkRow (Some 5%Z) (Some "Section 5") (Some [30%Z])])
    by reflexivity.
  split; [exact Hsel|].
  exact (proj2 (first_result_is_nearest sample_embedding sample_distance Z.leb
                  Z_leb_total Z_leb_trans sample_rows "a" _ _ Hsel)).
Defined.


(** Two rows without a vector: both are returned, with None as vector. *)
Lemma unembedded_rows_are_returned_witness :
  Forall (fun r => embedded r = false) unembedded_rows
  /\ length (fetchall sample_embedding sample_distance Z.leb unembedded_rows "a")
     = 2.
Proof.
  assert (Hall : Forall (fun r => embedded r = false) unembedded_rows)
    by (repeat constructor).
  split; [exact Hall|].
  exact (proj1 (unembedded_rows_are_returned sample_embedding sample_distance
                  Z.leb unembedded_rows "a" Hall)).
Defined.


(** A 404 answer: the ingestion cell ends without an exception. *)
Lemma ingest_cell_never_assigns_markdown_url_witness :
  failing_post "https://api.ecliptor.com/ingest/pdf"
    (PDict [("url",
             PStr "https://www.congress.gov/116/plaws/publ283/PLAW-116publ283.pdf")])
  = PResponse 404 None
  /\ (404 <> 200)%Z
  /\ raised (ingest_cell failing_post ∅) = None.
Proof.
  assert (Hne : (404 <> 200)%Z) by lia.
  split; [reflexivity|]. split; [exact Hne|].
  destruct (ingest_cell_never_assigns_markdown_url failing_post ∅)
    as (_ & _ & H).
  exact (proj2 (H 404%Z None eq_refl) Hne).
Defined.

(** A fresh kernel and services that answer as their contracts say. *)
Lemma chunking_after_ingestion_raises_name_error_witness :
  (∅ : namespace) !! "markdown_url" = None
  /\ raised (chunk_cell sample_post (final (ingest_cell sample_post ∅)))
     = Some NameError.
Proof.
  split; [reflexivity|].
  exact (proj1 (chunking_after_ingestion_raises_name_error sample_post ∅
                  eq_refl)).
Defined.

(** A database that already has the table, with one row. *)
Lemma setup_cells_not_rerunnable_witness :
  compliance_documents
    (mkDatabase (Some [mkRow (Some 1%Z) (Some "Section 1") None]) false None [])
  = Some [mkRow (Some 1%Z) (Some "Section 1") None]
  /\ raised (setup_cells
               (mkDatabase (Some [mkRow (Some 1%Z) (Some "Section 1") None])
                  false None []))
     = Some DuplicateTable.
Proof.
  split; [reflexivity|].
  exact (proj1 (setup_cells_not_rerunnable
                  (mkDatabase (Some [mkRow (Some 1%Z) (Some "Section 1") None])
                     false None [])
                  [mkRow (Some 1%Z) (Some "Section 1") None] eq_refl)).
Defined.
